(** * Job-role recommender backend ([src/app.js]): a shallow embedding

    The service is one Express module: a helper [safeParse], two clients of a
    chat-completion provider ([getAIJobRoles], [getAIDetailsForJob]) and three
    route handlers ([POST /recommend], [GET /job/:role], [GET /jobs]) over one
    table [job_roles].

    JavaScript values are an inductive type, exceptions and the two shared
    resources (the table and the provider) are threaded through a small
    state-and-error monad, and the runtime's own functions ([JSON.parse],
    [JSON.stringify], [decodeURIComponent]) are an interface the handlers are
    written against. *)

From Stdlib Require Import List String Ascii ZArith Bool Arith Lia.
From Stdlib Require Import Sorting.Sorted Sorting.Permutation DecimalString.
Import ListNotations.
Local Open Scope list_scope.
Local Open Scope string_scope.
Set Warnings "-register-all".

(* ===================================================================== *)
(** * JavaScript values *)
(* ===================================================================== *)

(** The values the handlers see: what [JSON.parse] and [express.json()]
    produce, plus [undefined].  Numbers are the integer-valued ones; a string
    is a sequence of code units, one [ascii] each; an object is the list of
    its own properties, the first binding of a key being the property. *)
Inductive value : Type :=
| JUndefined
| JNull
| JBool (b : bool)
| JNum (n : Z)
| JStr (s : string)
| JArr (l : list value)
| JObj (fields : list (string * value)).

(** What a [throw] carries.  [Fault] stands for an [Error] raised by a
    collaborator (the provider's SDK, the database driver) or by
    [throw new Error(...)]. *)
Inductive error : Type :=
| TypeError
| ReferenceError (ident : string)
| SyntaxError
| URIError
| Fault (message : string).

Inductive result (A : Type) : Type :=
| Ok (a : A)
| Throw (e : error).
Arguments Ok {A} a.
Arguments Throw {A} e.

Definition rbind {A B} (r : result A) (k : A -> result B) : result B :=
  match r with
  | Ok a => k a
  | Throw e => Throw e
  end.

Declare Scope exc_scope.
Delimit Scope exc_scope with exc.
Notation "x <-- c ;; k" := (rbind c (fun x => k))
  (at level 61, c at next level, right associativity) : exc_scope.

(** [arr.map(f)] for a callback that may throw: left to right, the first
    exception ends the call. *)
Fixpoint mapR {A B} (f : A -> result B) (l : list A) : result (list B) :=
  match l with
  | [] => Ok []
  | x :: xs =>
      (y <-- f x ;;
       ys <-- mapR f xs ;;
       Ok (y :: ys))%exc
  end.

(** ** Primitive operations *)

(** [!!v]. *)
Definition truthy (v : value) : bool :=
  match v with
  | JUndefined | JNull => false
  | JBool b => b
  | JNum n => negb (Z.eqb n 0)
  | JStr s => negb (String.eqb s EmptyString)
  | JArr _ | JObj _ => true
  end.

(** [a || b] on values already computed. *)
Definition js_or (a b : value) : value := if truthy a then a else b.

Definition isArray (v : value) : bool :=
  match v with JArr _ => true | _ => false end.

Definition isString (v : value) : bool :=
  match v with JStr _ => true | _ => false end.

Fixpoint assoc (k : string) (fields : list (string * value)) : value :=
  match fields with
  | [] => JUndefined
  | (k', v) :: rest => if String.eqb k k' then v else assoc k rest
  end.

(** [v.k] for an identifier [k].  Reading a property of [undefined] or [null]
    throws; a missing property is [undefined].  The keys the program reads
    are identifiers, so an array or a string answers only to [length];
    inherited methods are not values of the model. *)
Definition get (v : value) (k : string) : result value :=
  match v with
  | JUndefined | JNull => Throw TypeError
  | JObj fields => Ok (assoc k fields)
  | JArr l =>
      Ok (if String.eqb k "length" then JNum (Z.of_nat (List.length l))
          else JUndefined)
  | JStr s =>
      Ok (if String.eqb k "length" then JNum (Z.of_nat (String.length s))
          else JUndefined)
  | JBool _ | JNum _ => Ok JUndefined
  end.

(** [v[i]] for a literal index [i]. *)
Definition get_index (v : value) (i : nat) : result value :=
  match v with
  | JUndefined | JNull => Throw TypeError
  | JArr l => Ok (nth i l JUndefined)
  | JStr s =>
      Ok (match String.get i s with
          | Some c => JStr (String c EmptyString)
          | None => JUndefined
          end)
  | JObj fields => Ok (assoc (NilZero.string_of_uint (Nat.to_uint i)) fields)
  | JBool _ | JNum _ => Ok JUndefined
  end.

(** [s.substring(a, b)] for non-negative integer arguments. *)
Definition js_substring (s : string) (a b : nat) : string :=
  let lo := Nat.min a b in
  let hi := Nat.max a b in
  String.substring lo (hi - lo) s.

(** [v.substring(0, n) + "..."]: only a string has the method. *)
Definition preview_of (n : nat) (v : value) : result string :=
  match v with
  | JStr s => Ok (js_substring s 0 n ++ "...")
  | _ => Throw TypeError
  end.

(** [v.map((p) => typeof p === "string" ? p : p.title)]: only an array has
    [map]; [p.title] throws on a [null] element. *)
Definition titles (v : value) : result (list value) :=
  match v with
  | JArr l => mapR (fun p => if isString p then Ok p else get p "title") l
  | _ => Throw TypeError
  end.

Fixpoint has_own (k : string) (fields : list (string * value)) : bool :=
  match fields with
  | [] => false
  | (k', _) :: rest => String.eqb k k' || has_own k rest
  end.

(** [String(v)] as template literals and [join] apply it.  An object is
    converted through its [toString]: the inherited one gives
    "[object Object]"; an own [toString] property holds a value that cannot
    be called, and so does the [valueOf] tried next, or the inherited
    [valueOf] returns the object itself: the conversion throws.  An array is
    its elements joined by a comma. *)
Fixpoint ToString (v : value) : result string :=
  match v with
  | JUndefined => Ok "undefined"
  | JNull => Ok "null"
  | JBool true => Ok "true"
  | JBool false => Ok "false"
  | JNum n => Ok (NilZero.string_of_int (Z.to_int n))
  | JStr s => Ok s
  | JArr l =>
      (fix join (l : list value) : result string :=
         match l with
         | [] => Ok EmptyString
         | x :: rest =>
             (sx <-- match x with
                     | JUndefined | JNull => Ok EmptyString
                     | _ => ToString x
                     end ;;
              match rest with
              | [] => Ok sx
              | _ :: _ => (r <-- join rest ;; Ok (sx ++ "," ++ r))
              end)%exc
         end) l
  | JObj fields =>
      if has_own "toString" fields then Throw TypeError
      else Ok "[object Object]"
  end.

(** [arr.join(sep)]: the elements are converted from left to right. *)
Fixpoint join (sep : string) (l : list value) : result string :=
  match l with
  | [] => Ok EmptyString
  | x :: rest =>
      (sx <-- match x with
              | JUndefined | JNull => Ok EmptyString
              | _ => ToString x
              end ;;
       match rest with
       | [] => Ok sx
       | _ :: _ => (r <-- join sep rest ;; Ok (sx ++ sep ++ r))
       end)%exc
  end.

(** Case folding of one code unit, as [String.prototype.toLowerCase] and
    SQL [LOWER] do it on the model's alphabet, the code units U+0000 to
    U+00FF: the letters A-Z, and the accented capitals U+00C0 to U+00DE,
    the multiplication sign U+00D7 apart, move 32 places up. *)
Definition lower_ascii (c : ascii) : ascii :=
  let n := nat_of_ascii c in
  if (65 <=? n)%nat && (n <=? 90)%nat then ascii_of_nat (n + 32)
  else if (192 <=? n)%nat && (n <=? 222)%nat && negb (n =? 215)%nat
       then ascii_of_nat (n + 32)
  else c.

Fixpoint toLowerCase (s : string) : string :=
  match s with
  | EmptyString => EmptyString
  | String c rest => String (lower_ascii c) (toLowerCase rest)
  end.

(** SQL [TRIM]: leading and trailing spaces (0x20) are removed. *)
Fixpoint ltrim (s : string) : string :=
  match s with
  | String " " rest => ltrim rest
  | _ => s
  end.

Fixpoint rtrim (s : string) : string :=
  match s with
  | EmptyString => EmptyString
  | String c rest =>
      match rtrim rest with
      | EmptyString => if Ascii.eqb c " " then EmptyString
                       else String c EmptyString
      | r => String c r
      end
  end.

Definition sql_trim (s : string) : string := rtrim (ltrim s).

(* ===================================================================== *)
(** * The table [job_roles] *)
(* ===================================================================== *)

(** One row as [SELECT *] returns it: every column is text or [NULL].  The
    table's declaration is not part of the module; no column is taken to be
    [NOT NULL] and no key to be unique. *)
Record Row : Type := mkRow {
  role_name : option string;
  description : option string;
  tech_stack : option string;
  resume_keywords : option string;
  project_ideas : option string;
  roadmap_link : option string
}.

(** A column as the driver hands it to JavaScript. *)
Definition col (c : option string) : value :=
  match c with
  | Some s => JStr s
  | None => JNull
  end.

(** A bound parameter [?] as the driver writes it into the statement, seen
    from a text column: [Some None] is [NULL], [Some (Some s)] the text [s],
    [None] a statement the server rejects.  [undefined] and [null] are
    [NULL]; a number is its decimal text, a boolean [1] or [0]; a one-element
    array is its element; a longer or empty array becomes a list and an
    object a list of assignments, which a single placeholder does not take. *)
Fixpoint sql_param (v : value) : option (option string) :=
  match v with
  | JUndefined | JNull => Some None
  | JBool true => Some (Some "1")
  | JBool false => Some (Some "0")
  | JNum n => Some (Some (NilZero.string_of_int (Z.to_int n)))
  | JStr s => Some (Some s)
  | JArr [x] => sql_param x
  | JArr _ => None
  | JObj _ => None
  end.

Fixpoint sql_params (vs : list value) : option (list (option string)) :=
  match vs with
  | [] => Some []
  | v :: rest =>
      match sql_param v, sql_params rest with
      | Some c, Some cs => Some (c :: cs)
      | _, _ => None
      end
  end.

(** [WHERE TRIM(LOWER(role_name)) = TRIM(LOWER(?))] under a binary
    collation; a comparison with [NULL] selects nothing. *)
Definition matches_trim_lower (p : string) (row : Row) : bool :=
  match role_name row with
  | Some n => String.eqb (sql_trim (toLowerCase n)) (sql_trim (toLowerCase p))
  | None => false
  end.

(** [WHERE LOWER(role_name) = ?]. *)
Definition matches_lower (p : string) (row : Row) : bool :=
  match role_name row with
  | Some n => String.eqb (toLowerCase n) p
  | None => false
  end.

(** [ORDER BY role_name ASC]: [NULL] sorts first, text by code unit. *)
Definition role_name_leb (a b : option string) : bool :=
  match a, b with
  | None, _ => true
  | Some _, None => false
  | Some x, Some y => String.leb x y
  end.

Fixpoint insert_row (row : Row) (rows : list Row) : list Row :=
  match rows with
  | [] => [row]
  | r :: rest =>
      if role_name_leb (role_name row) (role_name r) then row :: rows
      else r :: insert_row row rest
  end.

Fixpoint order_by_role_name (rows : list Row) : list Row :=
  match rows with
  | [] => []
  | r :: rest => insert_row r (order_by_role_name rest)
  end.

(* ===================================================================== *)
(** * Shared state and effects *)
(* ===================================================================== *)

(** What one call of [openai.chat.completions.create] does: it rejects, or
    resolves to a response object. *)
Inductive Upstream : Type :=
| UpThrows (message : string)
| UpResponse (response : value).

(** The calls a handler makes on its collaborators, in order.  A provider
    call is logged by the part of its prompt that varies, the text
    interpolated into the template. *)
Inductive Effect : Type :=
| AiChat (prompt : string)
| DbSelectByName (p : value)
| DbSelectLower (p : string)
| DbSelectAll
| DbInsert (params : list value).

(** The process-wide state: the table, the provider (the outcome of its
    n-th call, for every n), the number of calls made so far, the log of
    effects, and whether the database answers: when it does not, every
    [db.query] rejects. *)
Record World : Type := mkWorld {
  db : list Row;
  provider : nat -> Upstream;
  calls : nat;
  trace : list Effect;
  reachable : bool
}.

Definition M (A : Type) : Type := World -> result A * World.

Definition ret {A} (a : A) : M A := fun w => (Ok a, w).

Definition throw {A} (e : error) : M A := fun w => (Throw e, w).

Definition lift {A} (r : result A) : M A := fun w => (r, w).

Definition bind {A B} (c : M A) (k : A -> M B) : M B :=
  fun w =>
    match c w with
    | (Ok a, w') => k a w'
    | (Throw e, w') => (Throw e, w')
    end.

(** [try { c } catch (err) { h err }]. *)
Definition try_catch {A} (c : M A) (h : error -> M A) : M A :=
  fun w =>
    match c w with
    | (Ok a, w') => (Ok a, w')
    | (Throw e, w') => h e w'
    end.

Declare Scope m_scope.
Delimit Scope m_scope with m.
Notation "x <- c ;; k" := (bind c (fun x => k))
  (at level 61, c at next level, right associativity) : m_scope.

Definition log (e : Effect) (w : World) : World :=
  mkWorld (db w) (provider w) (calls w) (trace w ++ [e])%list (reachable w).

(** What a rejected [db.query] throws. *)
Definition store_down : error := Fault "ECONNREFUSED".

(** The world after one provider call. *)
Definition called (prompt : string) (w : World) : World :=
  mkWorld (db w) (provider w) (S (calls w)) (trace w ++ [AiChat prompt])%list
          (reachable w).

(** [await openai.chat.completions.create({... prompt ...})]. *)
Definition chat (prompt : string) : M value :=
  fun w =>
    let w' := called prompt w in
    match provider w (calls w) with
    | UpThrows msg => (Throw (Fault msg), w')
    | UpResponse r => (Ok r, w')
    end.

(** [db.query("SELECT * FROM job_roles WHERE TRIM(LOWER(role_name)) =
    TRIM(LOWER(?))", [p])]. *)
Definition db_select_by_name (p : value) : M (list Row) :=
  fun w =>
    let w' := log (DbSelectByName p) w in
    if negb (reachable w) then (Throw store_down, w')
    else
      match sql_param p with
      | Some (Some s) => (Ok (filter (matches_trim_lower s) (db w)), w')
      | Some None => (Ok [], w')
      | None => (Throw (Fault "ER_PARSE_ERROR"), w')
      end.

(** [db.query("SELECT * FROM job_roles WHERE LOWER(role_name) = ?", [p])]. *)
Definition db_select_lower (p : string) : M (list Row) :=
  fun w =>
    if negb (reachable w) then (Throw store_down, log (DbSelectLower p) w)
    else (Ok (filter (matches_lower p) (db w)), log (DbSelectLower p) w).

(** [db.query("SELECT * FROM job_roles ORDER BY role_name ASC")]. *)
Definition db_select_all : M (list Row) :=
  fun w =>
    if negb (reachable w) then (Throw store_down, log DbSelectAll w)
    else (Ok (order_by_role_name (db w)), log DbSelectAll w).

(** [db.query("INSERT INTO job_roles (role_name, description, tech_stack,
    resume_keywords, project_ideas, roadmap_link) VALUES (?, ?, ?, ?, ?, ?)",
    params)]: the new row goes after the existing ones. *)
Definition db_insert (params : list value) : M unit :=
  fun w =>
    let logged := (trace w ++ [DbInsert params])%list in
    if negb (reachable w) then (Throw store_down, log (DbInsert params) w)
    else
      match sql_params params with
      | Some [rn; de; ts; rk; pi; rl] =>
          (Ok tt, mkWorld (db w ++ [mkRow rn de ts rk pi rl])%list
                          (provider w) (calls w) logged (reachable w))
      | _ => (Throw (Fault "ER_PARSE_ERROR"), log (DbInsert params) w)
      end.

(** Reading a variable.  [scope] holds the bindings visible at the point of
    use; a name bound nowhere throws.  The module binds, at its top level,
    only [express], [mysql], [cors], [dotenv], [OpenAI], [helmet], [morgan],
    [app], [PORT], [db], [initDB], [openai], [safeParse], [getAIJobRoles]
    and [getAIDetailsForJob]. *)
Fixpoint resolve (scope : list (string * value)) (x : string) : M value :=
  match scope with
  | [] => throw (ReferenceError x)
  | (y, v) :: rest => if String.eqb x y then ret v else resolve rest x
  end.

(** An [Error] object as a value: its [message]. *)
Definition error_message (e : error) : string :=
  match e with
  | TypeError => "TypeError"
  | ReferenceError x => x ++ " is not defined"
  | SyntaxError => "SyntaxError"
  | URIError => "URI malformed"
  | Fault m => m
  end.

Definition error_value (e : error) : value :=
  JObj [("message", JStr (error_message e))].

(** A response: [res.status(s).json(b)]; [res.json(b)] has status 200. *)
Record Response : Type := mkResponse {
  status : nat;
  body : value
}.

Definition error_body (msg : string) : value := JObj [("error", JStr msg)].

Definition elements (v : value) : list value :=
  match v with
  | JArr l => l
  | _ => []
  end.

(** The functions of the runtime the module calls. *)
Class Runtime : Type := {
  (** [JSON.parse] on a string; [None] is its [SyntaxError]. *)
  JSON_parse : string -> option value;
  (** [JSON.stringify] on a value other than [undefined]. *)
  JSON_stringify : value -> string;
  (** [decodeURIComponent]; [None] is its [URIError]. *)
  decodeURIComponent : string -> option string
}.

(* ===================================================================== *)
(** * The module *)
(* ===================================================================== *)

Section Program.

Context {RT : Runtime}.

Local Open Scope m_scope.

(** [JSON.parse(v)]: the argument is converted to a string first. *)
Definition json_parse (v : value) : result value :=
  (s <-- ToString v ;;
   match JSON_parse s with
   | Some p => Ok p
   | None => Throw SyntaxError
   end)%exc.

(** [JSON.stringify(v)]: [undefined] for [undefined]. *)
Definition json_stringify (v : value) : value :=
  match v with
  | JUndefined => JUndefined
  | _ => JStr (JSON_stringify v)
  end.

(** [try { c } catch { h }] for code without effects. *)
Definition rcatch {A} (c : result A) (h : result A) : result A :=
  match c with
  | Ok a => Ok a
  | Throw _ => h
  end.

(** Lines 59-69. *)
Definition safeParse (v : value) : result value :=
  if negb (truthy v) then Ok (JArr [])
  else if isString v then rcatch (json_parse v) (Ok (JArr []))
  else Ok v.

(** Lines 75-92 and 131-135: the prompts, kept up to their interpolated
    part.  Building one converts the skills, or the role name, to text,
    which can throw. *)
Definition roles_prompt (skills : list value) : result string :=
  (text <-- join ", " skills ;; Ok ("User skills: " ++ text))%exc.

Definition details_prompt (roleName : value) : result string :=
  (text <-- ToString roleName ;;
   Ok ("Provide details for the job role: " ++ text))%exc.

(** Lines 74-128.  The prompt is built before the [try]. *)
Definition getAIJobRoles (skills : list value) : M (list value) :=
  prompt <- lift (roles_prompt skills) ;;
  try_catch
    (response <- chat prompt ;;
     choices <- lift (get response "choices") ;;
     no_choices <- lift (if negb (truthy choices) then Ok true
                         else (len <-- get choices "length" ;;
                               Ok (match len with
                                   | JNum 0 => true
                                   | _ => false
                                   end))%exc) ;;
     if (no_choices : bool) then throw (Fault "No choices returned from Backend")
     else
       first <- lift (get_index choices 0) ;;
       message <- lift (get first "message") ;;
       content <- lift (get message "content") ;;
       parsed <- lift (json_parse content) ;;
       if isArray parsed then ret (elements parsed)
       else
         roles <- lift (get parsed "roles") ;;
         if truthy roles && isArray roles then ret (elements roles)
         else
           jobs <- lift (get parsed "jobs") ;;
           if truthy jobs && isArray jobs then ret (elements jobs)
           else ret [])
    (fun err =>
       (* console.error(err.message); err.response && err.response.error *)
       _ <- resolve [("skills", JArr skills); ("prompt", JStr prompt);
                     ("err", error_value err)] "res" ;;
       (* res.status(500).json(...) *)
       ret []).

(** Lines 130-150.  The prompt is built before the [try]. *)
Definition getAIDetailsForJob (roleName : value) : M value :=
  prompt <- lift (details_prompt roleName) ;;
  try_catch
    (response <- chat prompt ;;
     choices <- lift (get response "choices") ;;
     first <- lift (get_index choices 0) ;;
     message <- lift (get first "message") ;;
     content <- lift (get message "content") ;;
     lift (json_parse content))
    (fun err => ret JNull).

(** Lines 181-188: the entry pushed for a stored row. *)
Definition hit_entry (row : Row) (score : value) : result value :=
  (preview <-- preview_of 130 (col (description row)) ;;
   ideas <-- safeParse (col (project_ideas row)) ;;
   ts <-- titles ideas ;;
   Ok (JObj [("role", col (role_name row)); ("score", score);
             ("preview", JStr preview); ("projectIdeas", JArr ts)]))%exc.

(** Lines 196-203: the parameters of the [INSERT]. *)
Definition insert_params (jobDetails : value) : result (list value) :=
  (jobRole <-- get jobDetails "jobRole" ;;
   jobrole <-- (if truthy jobRole then Ok JUndefined
                else get jobDetails "jobrole") ;;
   description <-- get jobDetails "description" ;;
   techStack <-- get jobDetails "techStack" ;;
   resumeKeywords <-- get jobDetails "resumeKeywords" ;;
   projectIdeas <-- get jobDetails "projectIdeas" ;;
   roadmapLink <-- get jobDetails "roadmapLink" ;;
   Ok [js_or jobRole jobrole; description; json_stringify techStack;
       json_stringify resumeKeywords; json_stringify projectIdeas;
       roadmapLink])%exc.

(** Lines 206-213: the entry pushed for a freshly described role. *)
Definition miss_entry (jobDetails : value) (score : value) : result value :=
  (role <-- get jobDetails "role" ;;
   description <-- get jobDetails "description" ;;
   preview <-- preview_of 130 description ;;
   projectIdeas <-- get jobDetails "projectIdeas" ;;
   ts <-- titles projectIdeas ;;
   Ok (JObj [("role", role); ("score", score);
             ("preview", JStr preview); ("projectIdeas", JArr ts)]))%exc.

(** Line 170: [typeof r === "string" ? r : r.role]. *)
Definition role_of (r : value) : result value :=
  if isString r then Ok r else get r "role".

(** Line 171: [r.score || null]. *)
Definition score_of (r : value) : result value :=
  (s <-- get r "score" ;; Ok (js_or s JNull))%exc.

(** Lines 179-215: what the loop body does with the rows of the lookup. *)
Definition after_lookup (roleName score : value) (rows : list Row)
    (finalJobs : list value) : M (list value) :=
  match rows with
  | row :: _ =>
      entry <- lift (hit_entry row score) ;;
      ret (finalJobs ++ [entry])%list
  | [] =>
      jobDetails <- getAIDetailsForJob roleName ;;
      (* line 192: the arguments of console.log *)
      _ <- lift (get jobDetails "jobRole") ;;
      _ <- lift (get jobDetails "jobrole") ;;
      _ <- lift (get jobDetails "role") ;;
      if truthy jobDetails then
        params <- lift (insert_params jobDetails) ;;
        _ <- db_insert params ;;
        entry <- lift (miss_entry jobDetails score) ;;
        ret (finalJobs ++ [entry])%list
      else ret finalJobs
  end.

(** Lines 169-216: one turn of [for (const r of aiRoles)].  [locals] are the
    bindings of the handler around the loop; [req] and [res], its
    parameters, are bound as well and are not values of the model. *)
Definition loop_body (locals : list (string * value)) (finalJobs : list value)
    (r : value) : M (list value) :=
  roleName <- lift (role_of r) ;;
  score <- lift (score_of r) ;;
  p <- resolve (("score", score) :: ("roleName", roleName) :: ("r", r)
                :: ("finalJobs", JArr finalJobs) :: locals) "role_name" ;;
  rows <- db_select_by_name p ;;
  after_lookup roleName score rows finalJobs.

Fixpoint for_of (step : list value -> value -> M (list value))
    (items : list value) (acc : list value) : M (list value) :=
  match items with
  | [] => ret acc
  | r :: rest =>
      acc' <- step acc r ;;
      for_of step rest acc'
  end.

(** The bindings of the handler of [POST /recommend] around its loop. *)
Definition handler_locals (skills : value) (aiRoles : list value)
  : list (string * value) :=
  [("aiRoles", JArr aiRoles); ("skills", skills)].

Definition bad_request : Response :=
  mkResponse 400 (error_body "Skills array required").

Definition not_found : Response :=
  mkResponse 404 (error_body "Job not found").

Definition server_error : Response :=
  mkResponse 500 (error_body "Something went wrong").

(** Lines 155-223: [POST /recommend] on the request body. *)
Definition post_recommend (req_body : value) : M Response :=
  try_catch
    (skills <- lift (get req_body "skills") ;;
     if negb (truthy skills) || negb (isArray skills)
        || (List.length (elements skills) =? 0)%nat
     then ret bad_request
     else
       aiRoles <- getAIJobRoles (elements skills) ;;
       finalJobs <- for_of (loop_body (handler_locals skills aiRoles))
                           aiRoles [] ;;
       ret (mkResponse 200 (JArr finalJobs)))
    (fun err => ret server_error).

(** Lines 225-250: [GET /job/:role] on [req.params.role], the path segment
    as the router hands it over, percent-decoded once already. *)
Definition get_job (param : string) : M Response :=
  try_catch
    (decoded <- lift (match decodeURIComponent param with
                      | Some s => Ok s
                      | None => Throw URIError
                      end) ;;
     let role := toLowerCase decoded in
     rows <- db_select_lower (toLowerCase role) ;;
     match rows with
     | [] => ret not_found
     | job :: _ =>
         techStack <- lift (safeParse (col (tech_stack job))) ;;
         resumeKeywords <- lift (safeParse (col (resume_keywords job))) ;;
         projectIdeas <- lift (safeParse (col (project_ideas job))) ;;
         ret (mkResponse 200
                (JObj [("role", col (role_name job));
                       ("description", col (description job));
                       ("techStack", techStack);
                       ("resumeKeywords", resumeKeywords);
                       ("projectIdeas", projectIdeas);
                       ("roadmapLink", col (roadmap_link job))]))
     end)
    (fun err => ret server_error).

(** Lines 256-263: the entry of [GET /jobs] for one row. *)
Definition jobs_entry (row : Row) : result value :=
  (preview <-- preview_of 120 (col (description row)) ;;
   ideas <-- safeParse (col (project_ideas row)) ;;
   ts <-- titles ideas ;;
   Ok (JObj [("role", col (role_name row));
             ("preview", JStr preview);
             ("projectIdeas", JArr ts);
             ("roadmapLink", js_or (col (roadmap_link row)) JNull)]))%exc.

(** Lines 252-270: [GET /jobs]. *)
Definition get_jobs : M Response :=
  try_catch
    (rows <- db_select_all ;;
     jobs <- lift (mapR jobs_entry rows) ;;
     ret (mkResponse 200 (JArr jobs)))
    (fun err => ret server_error).

(** The list a parsed provider answer carries, in the words of the
    contract: a bare list, or an object whose [roles] or [jobs] field is the
    list. *)
Definition provider_list (parsed : value) : option (list value) :=
  match parsed with
  | JArr l => Some l
  | JObj fields =>
      match assoc "roles" fields with
      | JArr l => Some l
      | _ =>
          match assoc "jobs" fields with
          | JArr l => Some l
          | _ => None
          end
      end
  | _ => None
  end.

Definition nullish (v : value) : bool :=
  match v with
  | JUndefined | JNull => true
  | _ => false
  end.

(** A row [GET /jobs] can render: its description is text, and its project
    ideas are absent, empty, not JSON, or a JSON array without [null]. *)
Definition renderable (row : Row) : bool :=
  match description row with
  | None => false
  | Some _ =>
      match project_ideas row with
      | None => true
      | Some s =>
          if String.eqb s EmptyString then true
          else match JSON_parse s with
               | None => true
               | Some (JArr l) => forallb (fun p => negb (nullish p)) l
               | Some _ => false
               end
      end
  end.

(** Ascending order of names, in the words of the listing's contract: a
    missing name before every name, two names by [String.leb]. *)
Definition name_le (a b : option string) : Prop :=
  match a, b with
  | None, _ => True
  | Some _, None => False
  | Some x, Some y => (x <=? y)%string = true
  end.

(** Ascending order of [role_name]. *)
Definition by_role_name (a b : Row) : Prop :=
  role_name_leb (role_name a) (role_name b) = true.

(** What [GET /jobs] makes of one row. *)
Definition rendered (row : Row) (entry : value) : Prop :=
  exists d ts,
    description row = Some d
    /\ entry = JObj [("role", col (role_name row));
                     ("preview", JStr (js_substring d 0 120 ++ "..."));
                     ("projectIdeas", JArr ts);
                     ("roadmapLink", js_or (col (roadmap_link row)) JNull)].

(** A stored project idea as the listings show it: a string as it is, an
    object by its [title]. *)
Definition title_of (p : value) : value :=
  match p with
  | JStr _ => p
  | JObj fields => assoc "title" fields
  | _ => JUndefined
  end.

(** A value the runtime writes as a non-empty JSON text and reads back. *)
Definition round_trips (v : value) : Prop :=
  v <> JUndefined
  /\ JSON_stringify v <> EmptyString
  /\ JSON_parse (JSON_stringify v) = Some v.

End Program.

(* ===================================================================== *)
(** * A reference runtime *)
(* ===================================================================== *)

(** The runtime functions on the fragment the examples use: JSON with
    integer numbers and the escapes of the quote and of the backslash, and
    percent-escapes of ASCII code units.  The theorems below hold for every [Runtime]; this one
    runs the handlers on concrete requests. *)
Module Reference.

Definition dquote : ascii := ascii_of_nat 34.

Definition is_ws (c : ascii) : bool :=
  Ascii.eqb c " " || Ascii.eqb c "010" || Ascii.eqb c "013" || Ascii.eqb c "009".

Fixpoint skip_ws (s : string) : string :=
  match s with
  | String c rest => if is_ws c then skip_ws rest else s
  | EmptyString => s
  end.

Definition digit_of (c : ascii) : option Z :=
  let n := nat_of_ascii c in
  if (48 <=? n)%nat && (n <=? 57)%nat then Some (Z.of_nat (n - 48)) else None.

Fixpoint digits (s : string) (acc : Z) : Z * string :=
  match s with
  | String c rest =>
      match digit_of c with
      | Some d => digits rest (acc * 10 + d)%Z
      | None => (acc, s)
      end
  | EmptyString => (acc, s)
  end.

Definition number (s : string) : option (Z * string) :=
  match s with
  | String c rest =>
      match digit_of c with
      | Some _ => Some (digits s 0%Z)
      | None => None
      end
  | EmptyString => None
  end.

(** The characters after an opening quote, up to the closing one. *)
Fixpoint string_body (s : string) : option (string * string) :=
  match s with
  | EmptyString => None
  | String "\" (String c rest) =>
      if Ascii.eqb c dquote || Ascii.eqb c "\" then
        match string_body rest with
        | Some (t, r) => Some (String c t, r)
        | None => None
        end
      else None
  | String c rest =>
      if Ascii.eqb c dquote then Some (EmptyString, rest)
      else
        match string_body rest with
        | Some (t, r) => Some (String c t, r)
        | None => None
        end
  end.

Fixpoint has_key (k : string) (fields : list (string * value)) : bool :=
  match fields with
  | [] => false
  | (k', _) :: rest => String.eqb k k' || has_key k rest
  end.

Fixpoint parse_value (fuel : nat) (s : string) : option (value * string) :=
  match fuel with
  | O => None
  | S fuel' =>
      let elems :=
        fix elems (n : nat) (s : string) : option (list value * string) :=
          match n with
          | O => None
          | S n' =>
              match parse_value fuel' s with
              | Some (v, r) =>
                  match skip_ws r with
                  | String "," r' =>
                      match elems n' r' with
                      | Some (vs, r'') => Some (v :: vs, r'')
                      | None => None
                      end
                  | String "]" r' => Some ([v], r')
                  | _ => None
                  end
              | None => None
              end
          end in
      let members :=
        fix members (n : nat) (s : string)
          : option (list (string * value) * string) :=
          match n with
          | O => None
          | S n' =>
              match skip_ws s with
              | String c r0 =>
                  match (if Ascii.eqb c dquote then string_body r0
                         else None) with
                  | Some (k, r1) =>
                      match skip_ws r1 with
                      | String ":" r2 =>
                          match parse_value fuel' r2 with
                          | Some (v, r3) =>
                              match skip_ws r3 with
                              | String "," r4 =>
                                  match members n' r4 with
                                  | Some (fs, r5) =>
                                      Some (if has_key k fs then fs
                                            else (k, v) :: fs, r5)
                                  | None => None
                                  end
                              | String "}" r4 => Some ([(k, v)], r4)
                              | _ => None
                              end
                          | None => None
                          end
                      | _ => None
                      end
                  | None => None
                  end
              | _ => None
              end
          end in
      match skip_ws s with
      | String "n" (String "u" (String "l" (String "l" r))) => Some (JNull, r)
      | String "t" (String "r" (String "u" (String "e" r))) =>
          Some (JBool true, r)
      | String "f" (String "a" (String "l" (String "s" (String "e" r)))) =>
          Some (JBool false, r)
      | String "[" r =>
          match skip_ws r with
          | String "]" r' => Some (JArr [], r')
          | _ =>
              match elems (String.length r) r with
              | Some (vs, r') => Some (JArr vs, r')
              | None => None
              end
          end
      | String "{" r =>
          match skip_ws r with
          | String "}" r' => Some (JObj [], r')
          | _ =>
              match members (String.length r) r with
              | Some (fs, r') => Some (JObj fs, r')
              | None => None
              end
          end
      | String "-" r =>
          match number r with
          | Some (n, r') => Some (JNum (- n), r')
          | None => None
          end
      | String c r =>
          if Ascii.eqb c dquote then
            match string_body r with
            | Some (t, r') => Some (JStr t, r')
            | None => None
            end
          else
            match number (String c r) with
            | Some (n, r') => Some (JNum n, r')
            | None => None
            end
      | EmptyString => None
      end
  end.

Definition parse (s : string) : option value :=
  match parse_value (S (String.length s)) s with
  | Some (v, r) =>
      match skip_ws r with
      | EmptyString => Some v
      | _ => None
      end
  | None => None
  end.

Fixpoint quote_body (s : string) : string :=
  match s with
  | EmptyString => String dquote EmptyString
  | String c rest =>
      if Ascii.eqb c dquote || Ascii.eqb c "\" then
        String "\" (String c (quote_body rest))
      else String c (quote_body rest)
  end.

Definition quote (s : string) : string := String dquote (quote_body s).

Fixpoint stringify (v : value) : string :=
  match v with
  | JUndefined | JNull => "null"
  | JBool true => "true"
  | JBool false => "false"
  | JNum n => NilZero.string_of_int (Z.to_int n)
  | JStr s => quote s
  | JArr l =>
      "[" ++
      (fix items (l : list value) : string :=
         match l with
         | [] => EmptyString
         | [x] => stringify x
         | x :: rest => stringify x ++ "," ++ items rest
         end) l ++ "]"
  | JObj fields =>
      "{" ++
      (fix members (fs : list (string * value)) : string :=
         match fs with
         | [] => EmptyString
         | [(k, x)] => quote k ++ ":" ++ stringify x
         | (k, x) :: rest => quote k ++ ":" ++ stringify x ++ "," ++ members rest
         end) fields ++ "}"
  end.

Definition hex_of (c : ascii) : option nat :=
  let n := nat_of_ascii c in
  if (48 <=? n)%nat && (n <=? 57)%nat then Some (n - 48)%nat
  else if (65 <=? n)%nat && (n <=? 70)%nat then Some (n - 55)%nat
  else if (97 <=? n)%nat && (n <=? 102)%nat then Some (n - 87)%nat
  else None.

Fixpoint decode (s : string) : option string :=
  match s with
  | EmptyString => Some EmptyString
  | String "%" (String h (String l rest)) =>
      match hex_of h, hex_of l, decode rest with
      | Some a, Some b, Some t =>
          if (a <? 8)%nat then Some (String (ascii_of_nat (16 * a + b)) t)
          else None
      | _, _, _ => None
      end
  | String "%" _ => None
  | String c rest =>
      match decode rest with
      | Some t => Some (String c t)
      | None => None
      end
  end.

#[export] Instance runtime : Runtime := {
  JSON_parse := parse;
  JSON_stringify := stringify;
  decodeURIComponent := decode
}.

End Reference.

(* ===================================================================== *)
(** * Requests and tables used in the examples *)
(* ===================================================================== *)

Module Fixtures.

(** JSON text written with apostrophes for its quotes. *)
Fixpoint json (s : string) : string :=
  match s with
  | EmptyString => EmptyString
  | String c rest =>
      String (if Ascii.eqb c "'" then Reference.dquote else c) (json rest)
  end.

(** A chat completion whose first choice carries [content]. *)
Definition completion (content : string) : value :=
  JObj [("choices",
         JArr [JObj [("message", JObj [("role", JStr "assistant");
                                       ("content", JStr content)])]])].

(** 165 characters. *)
Definition long_text : string :=
  "Designs, builds and operates the server side of web products: data models, "
  ++ "HTTP interfaces, background jobs, observability and the release pipeline "
  ++ "that ships them.".

Definition backend_row : Row :=
  mkRow (Some "Backend Developer") (Some long_text)
        (Some (json "['Node.js','MySQL']"))
        (Some (json "['REST','SQL']"))
        (Some (json "[{'title':'URL shortener'},'Chat server']"))
        (Some "https://roadmap.sh/backend").

Definition analyst_row : Row :=
  mkRow (Some "Analyst") (Some "Reads data.") None None None None.

Definition skills_body : value :=
  JObj [("skills", JArr [JStr "sql"; JStr "node"])].

(** A provider that is down. *)
Definition down : nat -> Upstream := fun _ => UpThrows "ECONNRESET".

(** A provider answering its first call with [first] and the later ones
    with [next]. *)
Definition answers (first : Upstream) (next : Upstream) : nat -> Upstream :=
  fun n => match n with
           | O => first
           | S _ => next
           end.

Definition start (rows : list Row) (p : nat -> Upstream) : World :=
  mkWorld rows p 0 [] true.

(** The provider suggests one role, which the table holds up to case and
    surrounding spaces. *)
Definition stored_suggestion : string :=
  json "{'roles':[{'role':' backend developer ','score':85}]}".

Definition hit_world : World :=
  start [backend_row]
        (answers (UpResponse (completion stored_suggestion)) (UpThrows "503")).

(** The provider suggests two roles the table does not hold, and fails to
    describe them. *)
Definition two_suggestions : string :=
  json ("{'roles':[{'role':'Quantum Barista','score':40},"
        ++ "{'role':'Data Engineer','score':90}]}").

Definition undescribed_world : World :=
  start [backend_row]
        (answers (UpResponse (completion two_suggestions)) (UpThrows "503")).

(** The provider suggests a role the table does not hold and describes it. *)
Definition one_suggestion : string :=
  json "{'roles':[{'role':'Data Engineer','score':90}]}".

Definition details_text (name_key : string) : string :=
  json ("{'" ++ name_key ++ "':'Data Engineer',"
        ++ "'description':'Builds and runs data pipelines.',"
        ++ "'techStack':['Spark','Airflow'],'resumeKeywords':['ETL'],"
        ++ "'projectIdeas':['Lakehouse'],"
        ++ "'roadmapLink':'https://roadmap.sh/data-engineer'}").

Definition miss_world : World :=
  start []
        (answers (UpResponse (completion one_suggestion))
                 (UpResponse (completion (details_text "jobRole")))).

(** The world at the provider's second call, for a description that names
    the role under [name_key]. *)
Definition describing (name_key : string) : World :=
  mkWorld [] (fun _ => UpResponse (completion (details_text name_key))) 1 []
          true.

(** The provider answers with four roles. *)
Definition four_suggestions : string :=
  json ("{'roles':[{'role':'Backend Developer','score':85},"
        ++ "{'role':'Database Engineer','score':70},"
        ++ "{'role':'Full Stack Developer','score':65},"
        ++ "{'role':'Data Engineer','score':60}]}").

Definition four_world : World :=
  start [] (answers (UpResponse (completion four_suggestions)) (UpThrows "503")).

(** A suggestion scored 0. *)
Definition zero_scored : value :=
  JObj [("role", JStr "Backend Developer"); ("score", JNum 0)].

Definition described : value :=
  JObj [("role", JStr "Data Engineer");
        ("description", JStr "Builds and runs data pipelines.");
        ("projectIdeas", JArr [JStr "Lakehouse"])].

(** A chat completion without choices. *)
Definition no_choices : value := JObj [("choices", JArr [])].

(** A provider whose every answer carries [content]. *)
Definition saying (content : string) : nat -> Upstream :=
  fun _ => UpResponse (completion content).

(** A description of a role, named under [jobRole]. *)
Definition engineer_details : value :=
  JObj [("jobRole", JStr "Data Engineer");
        ("description", JStr "Builds and runs data pipelines.");
        ("techStack", JArr [JStr "Spark"; JStr "Airflow"]);
        ("resumeKeywords", JArr [JStr "ETL"]);
        ("projectIdeas", JArr [JObj [("title", JStr "Lakehouse")]]);
        ("roadmapLink", JStr "https://roadmap.sh/data-engineer")].

(** Two rows of the same name, case apart. *)
Definition shadow_row : Row :=
  mkRow (Some "BACKEND DEVELOPER") (Some "A later duplicate.") None None None
        (Some EmptyString).

(** A skills list whose second element cannot be converted to text. *)
Definition poisoned_skills : list value :=
  [JStr "sql"; JObj [("toString", JNum 1)]].

(** The database is down. *)
Definition unreachable (rows : list Row) : World :=
  mkWorld rows down 0 [] false.

(** A row with an accented name. *)
Definition cafe_row : Row :=
  mkRow (Some (String "C" (String "a" (String "f"
                 (String (ascii_of_nat 233) EmptyString)))))
        (Some "Serves coffee.") None None None None.

(** The same name in capitals. *)
Definition cafe_capitals : string :=
  String "C" (String "A" (String "F" (String (ascii_of_nat 201) EmptyString))).

(** A row without description. *)
Definition blank_row : Row :=
  mkRow (Some "Intern") None None None None None.

End Fixtures.

(* ===================================================================== *)
(** * Properties *)
(* ===================================================================== *)

Section Properties.

Context {RT : Runtime}.

#[local] Arguments json_parse : simpl never.

(** ** The monad *)

Lemma bind_ok {A B} (c : M A) (k : A -> M B) (w w' : World) (a : A) :
  c w = (Ok a, w') -> bind c k w = k a w'.
Proof. intros H. unfold bind. now rewrite H. Qed.

Lemma bind_throw {A B} (c : M A) (k : A -> M B) (w w' : World) (e : error) :
  c w = (Throw e, w') -> bind c k w = (Throw e, w').
Proof. intros H. unfold bind. now rewrite H. Qed.

Lemma try_catch_ok {A} (c : M A) (h : error -> M A) (w w' : World) (a : A) :
  c w = (Ok a, w') -> try_catch c h w = (Ok a, w').
Proof. intros H. unfold try_catch. now rewrite H. Qed.

Lemma try_catch_throw {A} (c : M A) (h : error -> M A) (w w' : World)
    (e : error) :
  c w = (Throw e, w') -> try_catch c h w = h e w'.
Proof. intros H. unfold try_catch. now rewrite H. Qed.

Lemma bind_lift {A B} (r : result A) (k : A -> M B) (w : World) :
  bind (lift r) k w =
  match r with
  | Ok a => k a w
  | Throw e => (Throw e, w)
  end.
Proof. now destruct r. Qed.

Lemma chat_run (prompt : string) (w : World) :
  chat prompt w =
  (match provider w (calls w) with
   | UpThrows msg => Throw (Fault msg)
   | UpResponse r => Ok r
   end, called prompt w).
Proof. unfold chat. now destruct (provider w (calls w)). Qed.

(** ** [getAIJobRoles] *)

Ltac split_matches :=
  repeat match goal with
         | |- context [match ?x with _ => _ end] =>
             lazymatch type of x with
             | prod _ _ => fail
             | _ => destruct x eqn:?; cbn
             end
         end.

(** Text skills always make a prompt. *)
Lemma join_strings (sep : string) (l : list value) :
  forallb isString l = true -> exists text, join sep l = Ok text.
Proof.
  induction l as [|x rest IH]; cbn; [eauto|].
  intros H. apply andb_true_iff in H as [Hx Hrest].
  destruct x; try discriminate. cbn.
  destruct (IH Hrest) as [text Ht]. destruct rest; [eauto|].
  rewrite Ht. cbn. eauto.
Qed.

Lemma roles_prompt_strings (skills : list value) :
  forallb isString skills = true -> exists prompt, roles_prompt skills = Ok prompt.
Proof.
  intros H. unfold roles_prompt.
  destruct (join_strings ", " skills H) as [text ->]. cbn. eauto.
Qed.

(** Building the prompt throws and no call is made; or the provider is
    called once and the function then returns a list, or its [catch] block
    throws on the unbound [res]. *)
Lemma getAIJobRoles_outcome (skills : list value) (w : World) :
  (exists e, roles_prompt skills = Throw e
             /\ getAIJobRoles skills w = (Throw e, w))
  \/ exists prompt,
       roles_prompt skills = Ok prompt
       /\ ((exists l, getAIJobRoles skills w = (Ok l, called prompt w))
           \/ getAIJobRoles skills w
              = (Throw (ReferenceError "res"), called prompt w)).
Proof.
  unfold getAIJobRoles. rewrite bind_lift.
  destruct (roles_prompt skills) as [prompt|e]; [right|left; eauto].
  exists prompt. split; [reflexivity|].
  unfold try_catch, bind. rewrite chat_run.
  destruct (provider w (calls w)) as [msg|response]; cbn.
  - now right.
  - unfold lift, ret, throw.
    split_matches; eauto.
Qed.

(** When the upstream call rejects, so does [getAIJobRoles]. *)
Lemma getAIJobRoles_upstream_error (skills : list value) (w : World)
    (msg prompt : string) :
  roles_prompt skills = Ok prompt ->
  provider w (calls w) = UpThrows msg ->
  getAIJobRoles skills w = (Throw (ReferenceError "res"), called prompt w).
Proof.
  intros Hpr H. unfold getAIJobRoles. rewrite bind_lift, Hpr.
  unfold try_catch, bind. rewrite chat_run, H. reflexivity.
Qed.

(** [getAIJobRoles] changes neither the table nor its reachability. *)
Lemma getAIJobRoles_keeps_table (skills : list value) (w : World) :
  db (snd (getAIJobRoles skills w)) = db w.
Proof.
  destruct (getAIJobRoles_outcome skills w)
    as [[e [_ H]]|[prompt [_ [[l H]|H]]]]; now rewrite H.
Qed.

(** ** [POST /recommend] *)

(** Every turn of the loop stops at the lookup: [role_name] is bound neither
    in the loop ([roleName], [score], [r]), nor in the handler, nor in the
    module.  Nothing has been queried or written by then. *)
Lemma loop_body_throws (skills : value) (aiRoles finalJobs : list value)
    (r : value) (w : World) :
  exists e,
    loop_body (handler_locals skills aiRoles) finalJobs r w = (Throw e, w).
Proof.
  unfold loop_body, handler_locals, bind, lift.
  destruct (role_of r) as [roleName|e]; [|now exists e].
  destruct (score_of r) as [score|e]; [|now exists e].
  cbn. now exists (ReferenceError "role_name").
Qed.

Lemma for_of_first_throws (step : list value -> value -> M (list value))
    (r : value) (rest acc : list value) (w w' : World) (e : error) :
  step acc r w = (Throw e, w') ->
  for_of step (r :: rest) acc w = (Throw e, w').
Proof. intros H. cbn. now apply bind_throw. Qed.

(** The three outcomes of a request with a non-empty skills array. *)
Lemma post_recommend_outcome (req_body x : value) (xs : list value)
    (w : World) :
  get req_body "skills" = Ok (JArr (x :: xs)) ->
  post_recommend req_body w =
  match getAIJobRoles (x :: xs) w with
  | (Ok [], w') => (Ok (mkResponse 200 (JArr [])), w')
  | (Ok (_ :: _), w') => (Ok server_error, w')
  | (Throw _, w') => (Ok server_error, w')
  end.
Proof.
  intros Hs. unfold post_recommend, try_catch, bind at 1, lift.
  rewrite Hs. cbn -[getAIJobRoles for_of].
  unfold bind at 1.
  destruct (getAIJobRoles (x :: xs) w) as [[l|e] w'] eqn:Hr; [|reflexivity].
  destruct l as [|r rest]; [reflexivity|].
  destruct (loop_body_throws (JArr (x :: xs)) (r :: rest) [] r w') as [e He].
  erewrite bind_throw; [reflexivity|].
  apply for_of_first_throws. exact He.
Qed.

(** C3.  A request whose [skills] is a non-empty array always gets a
    response, never an exception out of the handler: either status 200 with
    an array, or a 4xx/5xx whose body is an object with an [error] field.
    When the upstream call of [getAIJobRoles] rejects, the response is a 500
    with an [error] field, no list is returned and the table is unchanged. *)
Theorem recommend_never_faults (req_body x : value) (xs : list value)
    (w : World) :
  get req_body "skills" = Ok (JArr (x :: xs)) ->
  exists resp w',
    post_recommend req_body w = (Ok resp, w')
    /\ ((status resp = 200 /\ exists entries, body resp = JArr entries)
        \/ (400 <= status resp < 600
            /\ exists msg, body resp = error_body msg))
    /\ (forall msg, provider w (calls w) = UpThrows msg ->
        status resp = 500
        /\ (exists m, body resp = error_body m)
        /\ db w' = db w).
Proof.
  intros Hs. rewrite (post_recommend_outcome _ _ _ _ Hs).
  pose proof (getAIJobRoles_keeps_table (x :: xs) w) as Hdb.
  assert (Hdown : forall msg l w', provider w (calls w) = UpThrows msg ->
                  getAIJobRoles (x :: xs) w <> (Ok l, w')).
  { intros msg l w' Hm.
    destruct (getAIJobRoles_outcome (x :: xs) w)
      as [[e [_ H]]|[prompt [Hpr _]]]; [rewrite H; discriminate|].
    rewrite (getAIJobRoles_upstream_error _ _ _ _ Hpr Hm). discriminate. }
  destruct (getAIJobRoles (x :: xs) w) as [[[|r rest]|e] w1] eqn:Hr;
    cbn in Hdb; eexists _, _; (split; [reflexivity|]); split.
  - left. cbn. eauto.
  - intros msg Hm. now elim (Hdown msg [] w1 Hm).
  - right. cbn. split; [lia|eauto].
  - intros _ _. cbn. eauto.
  - right. cbn. split; [lia|eauto].
  - intros _ _. cbn. eauto.
Qed.

(** C8.  When [skills] is missing, is not an array, or is the empty array,
    the response is 400 with body [{error: "Skills array required"}], and
    the world is the one before the request: no provider call, no statement
    on the table, nothing logged. *)
Theorem recommend_requires_skills (req_body skills : value) (w : World) :
  get req_body "skills" = Ok skills ->
  skills = JUndefined \/ isArray skills = false \/ skills = JArr [] ->
  post_recommend req_body w = (Ok bad_request, w)
  /\ status bad_request = 400
  /\ body bad_request = JObj [("error", JStr "Skills array required")].
Proof.
  intros Hs Hbad. repeat split.
  unfold post_recommend, try_catch, bind, lift. rewrite Hs.
  match goal with
  | |- context [if ?g then _ else _] => assert (g = true) as ->
  end; [|reflexivity].
  destruct Hbad as [->|[Hna| ->]]; try reflexivity.
  destruct skills as [| |b|n|s|l|fields]; try discriminate; cbn;
    auto using orb_true_r.
Qed.

(** ** [safeParse] *)

Lemma json_parse_string (s : string) :
  json_parse (JStr s) =
  match JSON_parse s with
  | Some p => Ok p
  | None => Throw SyntaxError
  end.
Proof. unfold json_parse. cbn. now destruct (JSON_parse s). Qed.

Lemma safeParse_returns (v : value) : exists out, safeParse v = Ok out.
Proof.
  unfold safeParse.
  destruct (truthy v); cbn; [|eauto].
  destruct (isString v); [|eauto].
  destruct (json_parse v); cbn; eauto.
Qed.

(** C10.  [safeParse] returns on every input and never throws: a falsy
    input ([null], [undefined], the empty string, and also [0] and [false])
    gives the empty array; a string that is not JSON gives the empty array; a
    string that is JSON gives the parsed value, whatever its kind; any other
    value is returned as it is. *)
Theorem safeParse_total (v : value) :
  (exists out, safeParse v = Ok out)
  /\ (truthy v = false -> safeParse v = Ok (JArr []))
  /\ (forall s, v = JStr s -> s <> EmptyString -> JSON_parse s = None ->
      safeParse v = Ok (JArr []))
  /\ (forall s p, v = JStr s -> s <> EmptyString -> JSON_parse s = Some p ->
      safeParse v = Ok p)
  /\ (truthy v = true -> isString v = false -> safeParse v = Ok v).
Proof.
  split; [apply safeParse_returns|].
  unfold safeParse. repeat split.
  - now intros ->.
  - intros s -> Hne Hp. cbn.
    apply String.eqb_neq in Hne. rewrite Hne. cbn.
    rewrite json_parse_string, Hp. reflexivity.
  - intros s p -> Hne Hp. cbn.
    apply String.eqb_neq in Hne. rewrite Hne. cbn.
    rewrite json_parse_string, Hp. reflexivity.
  - now intros -> ->.
Qed.

(** ** [getAIJobRoles] *)

(** C6, as the code has it.  For skills that convert to text (strings
    always do), when the first choice of the provider's answer carries a JSON
    text whose value holds a list (bare, or under [roles] or [jobs]),
    [getAIJobRoles] returns that list as it is, so its length is the length
    of the provider's list: nothing cuts it to three. *)
Theorem getAIJobRoles_returns_provider_list (skills : list value) (w : World)
    (prompt : string) (response first message parsed : value)
    (others l : list value) (content : string) :
  roles_prompt skills = Ok prompt ->
  provider w (calls w) = UpResponse response ->
  get response "choices" = Ok (JArr (first :: others)) ->
  get first "message" = Ok message ->
  get message "content" = Ok (JStr content) ->
  JSON_parse content = Some parsed ->
  provider_list parsed = Some l ->
  getAIJobRoles skills w = (Ok l, called prompt w).
Proof.
  intros Hpr Hp Hc Hm Hct Hj Hl.
  unfold getAIJobRoles. rewrite bind_lift, Hpr.
  unfold try_catch, bind. rewrite chat_run, Hp.
  unfold lift. rewrite Hc. cbn. rewrite Hm, Hct, json_parse_string, Hj.
  destruct parsed as [| | | | |pl|fields]; try discriminate; cbn in Hl.
  - inversion Hl; subst. reflexivity.
  - cbn -[assoc].
    destruct (assoc "roles" fields) eqn:Hr; cbn -[assoc];
      rewrite ?andb_false_r; try (inversion Hl; subst; reflexivity);
      destruct (assoc "jobs" fields) eqn:Hjb; try discriminate;
      inversion Hl; subst; reflexivity.
Qed.

(** ** [GET /jobs] *)

Lemma role_name_leb_total (a b : option string) :
  role_name_leb a b = true \/ role_name_leb b a = true.
Proof.
  destruct a as [x|], b as [y|]; cbn; auto. apply String.leb_total.
Qed.

Lemma insert_row_perm (row : Row) (rows : list Row) :
  Permutation (row :: rows) (insert_row row rows).
Proof.
  induction rows as [|r rest IH]; cbn.
  - apply Permutation_refl.
  - destruct (role_name_leb (role_name row) (role_name r)).
    + apply Permutation_refl.
    + eapply perm_trans; [apply perm_swap|]. now apply perm_skip.
Qed.

Lemma insert_row_hd (row a : Row) (rows : list Row) :
  by_role_name a row -> HdRel by_role_name a rows ->
  HdRel by_role_name a (insert_row row rows).
Proof.
  intros Hrow Hhd. destruct rows as [|r rest]; cbn.
  - now constructor.
  - destruct (role_name_leb (role_name row) (role_name r)); constructor; auto.
    now inversion Hhd.
Qed.

Lemma insert_row_sorted (row : Row) (rows : list Row) :
  Sorted by_role_name rows -> Sorted by_role_name (insert_row row rows).
Proof.
  induction rows as [|r rest IH]; intros Hs; cbn.
  - repeat constructor.
  - destruct (role_name_leb (role_name row) (role_name r)) eqn:Hle.
    + constructor; [assumption|]. now constructor.
    + inversion Hs as [|? ? Hrest Hhd]; subst.
      constructor; [now apply IH|].
      apply insert_row_hd; [|assumption].
      destruct (role_name_leb_total (role_name r) (role_name row)) as [H|H];
        [exact H|congruence].
Qed.

Lemma order_by_role_name_perm (rows : list Row) :
  Permutation rows (order_by_role_name rows).
Proof.
  induction rows as [|r rest IH]; cbn; [constructor|].
  eapply perm_trans; [apply perm_skip, IH|apply insert_row_perm].
Qed.

Lemma order_by_role_name_sorted (rows : list Row) :
  Sorted by_role_name (order_by_role_name rows).
Proof.
  induction rows as [|r rest IH]; cbn; [constructor|].
  now apply insert_row_sorted.
Qed.

Lemma length_append (s t : string) :
  String.length (s ++ t) = String.length s + String.length t.
Proof. induction s as [|c s IH]; cbn; [reflexivity|now rewrite IH]. Qed.

Lemma length_substring_0 (n : nat) (s : string) :
  String.length (String.substring 0 n s) <= n.
Proof.
  revert s. induction n as [|n IH]; intros [|c s]; cbn; try lia.
  specialize (IH s). lia.
Qed.

Lemma preview_length (n : nat) (s : string) :
  String.length (js_substring s 0 n ++ "...") <= n + 3.
Proof.
  unfold js_substring. rewrite length_append. cbn [Nat.min Nat.max].
  rewrite Nat.sub_0_r. pose proof (length_substring_0 n s). cbn. lia.
Qed.

(** The titles of an array without [null] or [undefined] elements. *)
Lemma titles_defined (l : list value) :
  forallb (fun p => negb (nullish p)) l = true ->
  exists ts, titles (JArr l) = Ok ts.
Proof.
  cbn. induction l as [|p rest IH]; cbn; intros H; [eauto|].
  apply andb_true_iff in H as [Hp Hrest].
  destruct (IH Hrest) as [ts Hts]. rewrite Hts.
  destruct p; cbn in *; try discriminate; eauto.
Qed.

Lemma jobs_entry_renderable (row : Row) :
  renderable row = true -> exists e, jobs_entry row = Ok e /\ rendered row e.
Proof.
  unfold renderable, jobs_entry, rendered.
  destruct (description row) as [d|]; [|discriminate]. cbn.
  assert (Hgo : forall ts, exists e,
             Ok (JObj [("role", col (role_name row));
                       ("preview", JStr (js_substring d 0 120 ++ "..."));
                       ("projectIdeas", JArr ts);
                       ("roadmapLink", js_or (col (roadmap_link row)) JNull)])
             = Ok e
             /\ exists d0 ts0, Some d = Some d0
                /\ e = JObj [("role", col (role_name row));
                             ("preview", JStr (js_substring d0 0 120 ++ "..."));
                             ("projectIdeas", JArr ts0);
                             ("roadmapLink",
                              js_or (col (roadmap_link row)) JNull)])
    by (intros ts; eexists; split; [reflexivity|eauto]).
  destruct (project_ideas row) as [s|]; cbn; [|intros _; apply Hgo].
  unfold safeParse. cbn.
  destruct (String.eqb s EmptyString); cbn; [intros _; apply Hgo|].
  rewrite json_parse_string.
  destruct (JSON_parse s) as [[| | | | |l|]|]; cbn; try discriminate;
    try (intros _; apply Hgo).
  intros Hl. destruct (titles_defined l Hl) as [ts Hts].
  cbn in Hts. rewrite Hts. cbn. apply Hgo.
Qed.

Lemma mapR_jobs_entry (rows : list Row) :
  forallb renderable rows = true ->
  exists entries, mapR jobs_entry rows = Ok entries
                  /\ Forall2 rendered rows entries.
Proof.
  induction rows as [|r rest IH]; cbn; intros H; [eauto|].
  apply andb_true_iff in H as [Hr Hrest].
  destruct (jobs_entry_renderable r Hr) as [e [He Hrend]].
  destruct (IH Hrest) as [es [Hes Hall]].
  rewrite He, Hes. cbn. eauto.
Qed.

Lemma forallb_perm {A} (f : A -> bool) (l l' : list A) :
  Permutation l l' -> forallb f l = true -> forallb f l' = true.
Proof.
  intros Hp. rewrite !forallb_forall. intros H x Hx.
  apply H. eapply Permutation_in; [apply Permutation_sym, Hp|exact Hx].
Qed.

Lemma rendered_previews (rows : list Row) (entries : list value) :
  Forall2 rendered rows entries ->
  Forall (fun e => exists p, get e "preview" = Ok (JStr p)
                             /\ String.length p <= 123) entries.
Proof.
  induction 1 as [|row e rows es Hre _ IH]; constructor; [|exact IH].
  destruct Hre as [d [ts [_ ->]]]. eexists. split; [reflexivity|].
  apply (preview_length 120).
Qed.

Lemma sorted_names (rows : list Row) :
  Sorted by_role_name rows -> Sorted name_le (map role_name rows).
Proof.
  assert (Hle : forall a b, by_role_name a b ->
                            name_le (role_name a) (role_name b)).
  { intros a b. unfold by_role_name, role_name_leb, name_le.
    destruct (role_name a), (role_name b); auto; discriminate. }
  induction 1 as [|r rest Hs IH Hhd]; cbn; constructor; [exact IH|].
  destruct Hhd; cbn; constructor. now apply Hle.
Qed.

(** C9, as the code has it.  When the database answers and every row can
    be rendered (a text description; project ideas absent, empty, not JSON,
    or a JSON array without [null]), [GET /jobs] answers 200 with one entry
    per stored row, the rows taken in ascending order of [role_name]; each
    entry's preview is the first 120 characters of the description followed
    by the three-character marker, also for a shorter description, so it has
    at most 123 characters. *)
Theorem jobs_sorted_with_previews (w : World) :
  reachable w = true ->
  forallb renderable (db w) = true ->
  exists rows entries,
    get_jobs w = (Ok (mkResponse 200 (JArr entries)), log DbSelectAll w)
    /\ Permutation (db w) rows
    /\ Sorted name_le (map role_name rows)
    /\ Forall2 rendered rows entries
    /\ Forall (fun e => exists p, get e "preview" = Ok (JStr p)
                                  /\ String.length p <= 123) entries.
Proof.
  intros Hup Hr.
  pose proof (order_by_role_name_perm (db w)) as Hperm.
  destruct (mapR_jobs_entry (order_by_role_name (db w))
              (forallb_perm _ _ _ Hperm Hr)) as [entries [Hmap Hall]].
  exists (order_by_role_name (db w)), entries. repeat split.
  - unfold get_jobs, try_catch, bind, db_select_all, lift.
    rewrite Hup. cbn. now rewrite Hmap.
  - exact Hperm.
  - apply sorted_names, order_by_role_name_sorted.
  - exact Hall.
  - eapply rendered_previews, Hall.
Qed.

(** ** [GET /job/:role] *)

Lemma lower_ascii_idem (c : ascii) : lower_ascii (lower_ascii c) = lower_ascii c.
Proof. destruct c as [[|] [|] [|] [|] [|] [|] [|] [|]]; reflexivity. Qed.

Lemma toLowerCase_idem (s : string) :
  toLowerCase (toLowerCase s) = toLowerCase s.
Proof.
  induction s as [|c s IH]; cbn; [reflexivity|].
  now rewrite lower_ascii_idem, IH.
Qed.

(** No row with that name, case apart: 404. *)
Lemma get_job_unknown (param q : string) (w : World) :
  reachable w = true ->
  decodeURIComponent param = Some q ->
  filter (matches_lower (toLowerCase q)) (db w) = [] ->
  get_job param w = (Ok not_found, log (DbSelectLower (toLowerCase q)) w).
Proof.
  intros Hup Hd Hf. unfold get_job, try_catch, bind, lift, db_select_lower.
  rewrite Hd, toLowerCase_idem, Hup, Hf. reflexivity.
Qed.

(** The database does not answer: 500, after the attempt. *)
Lemma get_job_store_down (param q : string) (w : World) :
  reachable w = false ->
  decodeURIComponent param = Some q ->
  get_job param w = (Ok server_error, log (DbSelectLower (toLowerCase q)) w).
Proof.
  intros Hup Hd. unfold get_job, try_catch, bind, lift, db_select_lower.
  rewrite Hd, toLowerCase_idem, Hup. reflexivity.
Qed.

(** A row with that name, case apart: 200 with the columns of the first
    such row, the three list columns read through [safeParse]. *)
Lemma get_job_known (param q : string) (w : World) (job : Row)
    (others : list Row) :
  reachable w = true ->
  decodeURIComponent param = Some q ->
  filter (matches_lower (toLowerCase q)) (db w) = job :: others ->
  exists techStack resumeKeywords projectIdeas,
    safeParse (col (tech_stack job)) = Ok techStack
    /\ safeParse (col (resume_keywords job)) = Ok resumeKeywords
    /\ safeParse (col (project_ideas job)) = Ok projectIdeas
    /\ get_job param w =
       (Ok (mkResponse 200
              (JObj [("role", col (role_name job));
                     ("description", col (description job));
                     ("techStack", techStack);
                     ("resumeKeywords", resumeKeywords);
                     ("projectIdeas", projectIdeas);
                     ("roadmapLink", col (roadmap_link job))])),
        log (DbSelectLower (toLowerCase q)) w).
Proof.
  intros Hup Hd Hf.
  destruct (safeParse_returns (col (tech_stack job))) as [ts Hts].
  destruct (safeParse_returns (col (resume_keywords job))) as [rk Hrk].
  destruct (safeParse_returns (col (project_ideas job))) as [pi Hpi].
  exists ts, rk, pi. repeat split; try assumption.
  unfold get_job, try_catch, bind, lift, db_select_lower.
  rewrite Hd, toLowerCase_idem, Hup. cbn [negb].
  rewrite Hf, Hts, Hrk, Hpi. reflexivity.
Qed.

(** ** The loop body past its lookup *)

Lemma score_of_nonzero (r : value) (n : Z) :
  get r "score" = Ok (JNum n) -> n <> 0%Z -> score_of r = Ok (JNum n).
Proof.
  intros Hg Hn. unfold score_of. rewrite Hg. cbn. unfold js_or. cbn.
  apply Z.eqb_neq in Hn. now rewrite Hn.
Qed.

(** The entry for a stored row previews the first 130 characters of its
    description, whatever the score. *)
Lemma hit_entry_preview (row : Row) (score entry : value) (d : string) :
  description row = Some d ->
  hit_entry row score = Ok entry ->
  get entry "preview" = Ok (JStr (js_substring d 0 130 ++ "...")).
Proof.
  unfold hit_entry. intros Hd H. rewrite Hd in H. cbn in H.
  destruct (safeParse (col (project_ideas row))); [|discriminate].
  cbn in H. destruct (titles a); [|discriminate].
  cbn in H. now inversion H.
Qed.

Lemma hit_entry_score (row : Row) (score entry : value) :
  hit_entry row score = Ok entry -> get entry "score" = Ok score.
Proof.
  unfold hit_entry. intros H.
  destruct (preview_of 130 (col (description row))); [|discriminate].
  destruct (safeParse (col (project_ideas row))); [|discriminate].
  cbn in H. destruct (titles a0); [|discriminate].
  cbn in H. now inversion H.
Qed.

Lemma miss_entry_score (jobDetails score entry : value) :
  miss_entry jobDetails score = Ok entry -> get entry "score" = Ok score.
Proof.
  unfold miss_entry. intros H.
  destruct (get jobDetails "role"); [|discriminate]. cbn in H.
  destruct (get jobDetails "description"); [|discriminate]. cbn in H.
  destruct (preview_of 130 a0); [|discriminate]. cbn in H.
  destruct (get jobDetails "projectIdeas"); [|discriminate]. cbn in H.
  destruct (titles a2); [|discriminate].
  cbn in H. now inversion H.
Qed.

(** [getAIDetailsForJob] answers [null] when the upstream call rejects. *)
Lemma getAIDetailsForJob_upstream_error (roleName : value) (w : World)
    (msg prompt : string) :
  details_prompt roleName = Ok prompt ->
  provider w (calls w) = UpThrows msg ->
  getAIDetailsForJob roleName w = (Ok JNull, called prompt w).
Proof.
  intros Hpr H. unfold getAIDetailsForJob. rewrite bind_lift, Hpr.
  unfold try_catch, bind. rewrite chat_run, H. reflexivity.
Qed.

(** With no stored row and no description, line 192 reads a property of
    [null]: the turn throws instead of skipping the role. *)
Lemma after_lookup_undescribed (roleName score : value)
    (finalJobs : list value) (w : World) (msg prompt : string) :
  details_prompt roleName = Ok prompt ->
  provider w (calls w) = UpThrows msg ->
  after_lookup roleName score [] finalJobs w
  = (Throw TypeError, called prompt w).
Proof.
  intros Hpr H. unfold after_lookup.
  erewrite bind_ok
    by (eapply getAIDetailsForJob_upstream_error; eassumption).
  reflexivity.
Qed.

(** ** [POST /recommend] on every request *)

Lemma skills_guard (skills : value) :
  negb (truthy skills) || negb (isArray skills)
  || (List.length (elements skills) =? 0)%nat = true
  \/ exists x xs, skills = JArr (x :: xs).
Proof.
  destruct skills as [| |b|n|s|[|x xs]|fields]; cbn;
    rewrite ?orb_true_r; eauto.
Qed.

(** The ways a request can end, with the world each leaves. *)
Lemma post_recommend_cases (req_body : value) (w : World) :
  ((exists e, get req_body "skills" = Throw e)
   /\ post_recommend req_body w = (Ok server_error, w))
  \/ ((exists skills, get req_body "skills" = Ok skills
                      /\ forall x xs, skills <> JArr (x :: xs))
      /\ post_recommend req_body w = (Ok bad_request, w))
  \/ exists x xs,
       get req_body "skills" = Ok (JArr (x :: xs))
       /\ ((exists e, roles_prompt (x :: xs) = Throw e)
            /\ post_recommend req_body w = (Ok server_error, w)
           \/ exists prompt,
                roles_prompt (x :: xs) = Ok prompt
                /\ (post_recommend req_body w
                    = (Ok (mkResponse 200 (JArr [])), called prompt w)
                    \/ post_recommend req_body w
                       = (Ok server_error, called prompt w))).
Proof.
  destruct (get req_body "skills") as [skills|e] eqn:Hs.
  - destruct (skills_guard skills) as [Hg|[x [xs ->]]].
    + right. left. split.
      * exists skills. split; [reflexivity|].
        intros x xs ->. discriminate.
      * unfold post_recommend, try_catch, bind, lift.
        rewrite Hs, Hg. reflexivity.
    + right. right. exists x, xs. split; [reflexivity|].
      rewrite (post_recommend_outcome _ _ _ _ Hs).
      destruct (getAIJobRoles_outcome (x :: xs) w)
        as [[e [Hpr H]]|[prompt [Hpr [[l H]|H]]]]; rewrite H.
      * left. eauto.
      * right. exists prompt. split; [exact Hpr|]. destruct l; auto.
      * right. exists prompt. auto.
  - left. split; [eauto|].
    unfold post_recommend, try_catch, bind, lift. rewrite Hs. reflexivity.
Qed.

(** X1.  Whatever the request body and the state of its collaborators,
    [POST /recommend] answers, and with one of three responses: 400 "Skills
    array required", 500 "Something went wrong", or 200 with the empty
    array.  It never answers with a non-empty list. *)
Theorem post_recommend_responds (req_body : value) (w : World) :
  exists resp w',
    post_recommend req_body w = (Ok resp, w')
    /\ (resp = bad_request
        \/ resp = server_error
        \/ resp = mkResponse 200 (JArr [])).
Proof.
  destruct (post_recommend_cases req_body w)
    as [[_ H]|[[_ H]|[x [xs [_ [[_ H]|[prompt [_ [H|H]]]]]]]]];
    rewrite H; eauto 7.
Qed.

(** X2.  [POST /recommend] never reads or writes the table, and the world
    it leaves is known exactly: the world before the request, with no
    provider call, when the body cannot be destructured, when [skills] is
    not a non-empty array, or when the skills do not convert to text; that
    world after the one provider call of [getAIJobRoles] otherwise. *)
Theorem post_recommend_leaves_table (req_body : value) (w : World) :
  db (snd (post_recommend req_body w)) = db w
  /\ snd (post_recommend req_body w) =
     match get req_body "skills" with
     | Ok (JArr (x :: xs)) =>
         match roles_prompt (x :: xs) with
         | Ok prompt => called prompt w
         | Throw _ => w
         end
     | _ => w
     end.
Proof.
  destruct (post_recommend_cases req_body w)
    as [[[e He] H]|[[[skills [Hs Hne]] H]
       |[x [xs [Hs [[[e Hpr] H]|[prompt [Hpr [H|H]]]]]]]]];
    rewrite H; cbn [snd]; rewrite ?He, ?Hs, ?Hpr; try (split; reflexivity).
  split; [reflexivity|].
  destruct skills as [| | | | |[|x xs]|]; try reflexivity.
  now elim (Hne x xs).
Qed.

(** ** [getAIJobRoles] on answers of every shape *)

(** On an answer whose content parses to a value other than [null], the
    list returned is the one the value carries, and the empty list when it
    carries none. *)
Lemma getAIJobRoles_parsed (skills : list value) (w : World)
    (prompt : string) (response first message content parsed : value)
    (others : list value) :
  roles_prompt skills = Ok prompt ->
  provider w (calls w) = UpResponse response ->
  get response "choices" = Ok (JArr (first :: others)) ->
  get first "message" = Ok message ->
  get message "content" = Ok content ->
  json_parse content = Ok parsed ->
  nullish parsed = false ->
  getAIJobRoles skills w =
  (Ok (match provider_list parsed with
       | Some l => l
       | None => []
       end), called prompt w).
Proof.
  intros Hpr Hp Hc Hm Hct Hj Hn.
  unfold getAIJobRoles. rewrite bind_lift, Hpr.
  unfold try_catch, bind. rewrite chat_run, Hp.
  unfold lift. rewrite Hc. cbn. rewrite Hm, Hct, Hj.
  destruct parsed as [| |b|n|s|pl|fields]; try discriminate;
    try reflexivity.
  cbn -[assoc].
  destruct (assoc "roles" fields) eqn:Hr; cbn -[assoc];
    rewrite ?andb_false_r; try reflexivity;
    destruct (assoc "jobs" fields) eqn:Hjb; cbn -[assoc];
    rewrite ?andb_false_r; reflexivity.
Qed.

(** X3.  An answer of an unexpected shape is a soft failure: for skills
    that convert to text, when the content is JSON, is not [null], and is
    neither a list nor an object with a list under [roles] or [jobs],
    [getAIJobRoles] returns the empty list. *)
Theorem getAIJobRoles_unexpected_shape (skills : list value) (w : World)
    (prompt : string) (response first message content parsed : value)
    (others : list value) :
  roles_prompt skills = Ok prompt ->
  provider w (calls w) = UpResponse response ->
  get response "choices" = Ok (JArr (first :: others)) ->
  get first "message" = Ok message ->
  get message "content" = Ok content ->
  json_parse content = Ok parsed ->
  nullish parsed = false ->
  provider_list parsed = None ->
  getAIJobRoles skills w = (Ok [], called prompt w).
Proof.
  intros Hpr Hp Hc Hm Hct Hj Hn Hl.
  rewrite (getAIJobRoles_parsed _ _ _ _ _ _ _ _ _ Hpr Hp Hc Hm Hct Hj Hn), Hl.
  reflexivity.
Qed.

(** X4.  When the skills convert to text and the provider's answer carries
    no role (an unexpected shape, or an empty list), the request succeeds
    with the empty array after one provider call. *)
Theorem recommend_empty_answer (req_body x : value) (xs : list value)
    (w : World) (prompt : string)
    (response first message content parsed : value) (others : list value) :
  get req_body "skills" = Ok (JArr (x :: xs)) ->
  roles_prompt (x :: xs) = Ok prompt ->
  provider w (calls w) = UpResponse response ->
  get response "choices" = Ok (JArr (first :: others)) ->
  get first "message" = Ok message ->
  get message "content" = Ok content ->
  json_parse content = Ok parsed ->
  nullish parsed = false ->
  provider_list parsed = None \/ provider_list parsed = Some [] ->
  post_recommend req_body w =
  (Ok (mkResponse 200 (JArr [])), called prompt w).
Proof.
  intros Hs Hpr Hp Hc Hm Hct Hj Hn Hl.
  rewrite (post_recommend_outcome _ _ _ _ Hs).
  rewrite (getAIJobRoles_parsed _ _ _ _ _ _ _ _ _ Hpr Hp Hc Hm Hct Hj Hn).
  destruct Hl as [-> | ->]; reflexivity.
Qed.

(** X5.  For skills that convert to text, an answer without choices
    ([choices] missing, falsy or empty) does not come back as the empty list
    the [catch] block means to return: the block throws on the unbound
    [res]. *)
Theorem getAIJobRoles_no_choices (skills : list value) (w : World)
    (prompt : string) (response choices : value) :
  roles_prompt skills = Ok prompt ->
  provider w (calls w) = UpResponse response ->
  get response "choices" = Ok choices ->
  truthy choices = false \/ choices = JArr [] ->
  getAIJobRoles skills w = (Throw (ReferenceError "res"), called prompt w).
Proof.
  intros Hpr Hp Hc Hn.
  unfold getAIJobRoles. rewrite bind_lift, Hpr.
  unfold try_catch, bind. rewrite chat_run, Hp.
  unfold lift. rewrite Hc.
  destruct Hn as [Hf| ->]; [rewrite Hf|]; reflexivity.
Qed.

(** X6.  Neither does, for skills that convert to text, an answer whose
    content is not JSON, or is the JSON [null]: [getAIJobRoles] throws. *)
Theorem getAIJobRoles_bad_content (skills : list value) (w : World)
    (prompt : string) (response first message content : value)
    (others : list value) :
  roles_prompt skills = Ok prompt ->
  provider w (calls w) = UpResponse response ->
  get response "choices" = Ok (JArr (first :: others)) ->
  get first "message" = Ok message ->
  get message "content" = Ok content ->
  json_parse content = Throw SyntaxError \/ json_parse content = Ok JNull ->
  getAIJobRoles skills w = (Throw (ReferenceError "res"), called prompt w).
Proof.
  intros Hpr Hp Hc Hm Hct Hj.
  unfold getAIJobRoles. rewrite bind_lift, Hpr.
  unfold try_catch, bind. rewrite chat_run, Hp.
  unfold lift. rewrite Hc. cbn. rewrite Hm, Hct.
  destruct Hj as [-> | ->]; reflexivity.
Qed.

(** ** [getAIDetailsForJob] *)

(** X7.  For a role name that converts to text (every string does),
    [getAIDetailsForJob] never throws, whatever the provider does: it
    returns a value after exactly one provider call, and leaves the table
    alone.  A role name that does not convert makes it throw before any
    call: the prompt is built outside the [try]. *)
Theorem getAIDetailsForJob_never_throws (roleName : value) (w : World) :
  (forall prompt, details_prompt roleName = Ok prompt ->
   exists details,
     getAIDetailsForJob roleName w = (Ok details, called prompt w))
  /\ (forall e, details_prompt roleName = Throw e ->
      getAIDetailsForJob roleName w = (Throw e, w)).
Proof.
  split.
  - intros prompt Hpr. unfold getAIDetailsForJob. rewrite bind_lift, Hpr.
    unfold try_catch, bind. rewrite chat_run.
    destruct (provider w (calls w)) as [msg|response]; cbn.
    + now exists JNull.
    + unfold lift, ret. split_matches; eauto.
  - intros e Hpr. unfold getAIDetailsForJob. now rewrite bind_lift, Hpr.
Qed.

(** X8.  For a role name that converts to text, on an answer whose first
    choice carries JSON, the value returned is the parsed content, as it is:
    nothing checks that it is an object or that it has the fields the caller
    reads. *)
Theorem getAIDetailsForJob_returns_content (roleName : value) (w : World)
    (prompt : string) (response choices first message content parsed : value) :
  details_prompt roleName = Ok prompt ->
  provider w (calls w) = UpResponse response ->
  get response "choices" = Ok choices ->
  get_index choices 0 = Ok first ->
  get first "message" = Ok message ->
  get message "content" = Ok content ->
  json_parse content = Ok parsed ->
  getAIDetailsForJob roleName w = (Ok parsed, called prompt w).
Proof.
  intros Hpr Hp Hc Hf Hm Hct Hj.
  unfold getAIDetailsForJob. rewrite bind_lift, Hpr.
  unfold try_catch, bind. rewrite chat_run, Hp.
  unfold lift. now rewrite Hc, Hf, Hm, Hct, Hj.
Qed.

(** X9.  For a role name that converts to text, the value is [null] when
    the answer has no choices or when the content of its first choice is not
    JSON. *)
Theorem getAIDetailsForJob_null_on_bad_answer (roleName : value) (w : World)
    (prompt : string) (response choices : value) :
  details_prompt roleName = Ok prompt ->
  provider w (calls w) = UpResponse response ->
  get response "choices" = Ok choices ->
  choices = JUndefined
  \/ choices = JArr []
  \/ (exists first message content others,
        choices = JArr (first :: others)
        /\ get first "message" = Ok message
        /\ get message "content" = Ok content
        /\ json_parse content = Throw SyntaxError) ->
  getAIDetailsForJob roleName w = (Ok JNull, called prompt w).
Proof.
  intros Hpr Hp Hc Hbad.
  unfold getAIDetailsForJob. rewrite bind_lift, Hpr.
  unfold try_catch, bind. rewrite chat_run, Hp.
  unfold lift. rewrite Hc.
  destruct Hbad as [-> |[-> |[first [message [content [others
    [-> [Hm [Hct Hj]]]]]]]]]; cbn; try reflexivity.
  now rewrite Hm, Hct, Hj.
Qed.

(** ** [GET /job/:role] on every request *)

Lemma get_job_undecodable (param : string) (w : World) :
  decodeURIComponent param = None ->
  get_job param w = (Ok server_error, w).
Proof.
  intros Hd. unfold get_job, try_catch, bind, lift. now rewrite Hd.
Qed.

(** The ways the handler can end, with the world each leaves. *)
Lemma get_job_cases (param : string) (w : World) :
  (decodeURIComponent param = None
   /\ get_job param w = (Ok server_error, w))
  \/ exists q,
       decodeURIComponent param = Some q
       /\ ((reachable w = false
            /\ get_job param w
               = (Ok server_error, log (DbSelectLower (toLowerCase q)) w))
           \/ (reachable w = true
               /\ exists resp,
                    get_job param w
                    = (Ok resp, log (DbSelectLower (toLowerCase q)) w)
                    /\ (status resp = 200 \/ resp = not_found))).
Proof.
  destruct (decodeURIComponent param) as [q|] eqn:Hd.
  - right. exists q. split; [reflexivity|].
    destruct (reachable w) eqn:Hup.
    + right. split; [reflexivity|].
      destruct (filter (matches_lower (toLowerCase q)) (db w))
        as [|job others] eqn:Hf.
      * rewrite (get_job_unknown _ _ _ Hup Hd Hf). eauto.
      * destruct (get_job_known _ _ _ _ _ Hup Hd Hf)
          as [ts [rk [pi [_ [_ [_ Hg]]]]]].
        rewrite Hg. eexists. split; [reflexivity|]. now left.
    + left. split; [reflexivity|]. now apply get_job_store_down.
  - left. split; [reflexivity|]. now apply get_job_undecodable.
Qed.

(** X10.  [GET /job/:role] always answers, never calls the provider and
    leaves the table as it is.  A parameter that does not percent-decode is
    answered with 500 before any query.  Every other parameter costs one
    query, by the decoded and lower-cased name: when the database does not
    answer the response is 500, and otherwise it is 200 or 404 "Job not
    found". *)
Theorem get_job_responds (param : string) (w : World) :
  exists resp w',
    get_job param w = (Ok resp, w')
    /\ db w' = db w
    /\ calls w' = calls w
    /\ ((decodeURIComponent param = None
         /\ resp = server_error /\ trace w' = trace w)
        \/ (exists q,
              decodeURIComponent param = Some q
              /\ trace w'
                 = (trace w ++ [DbSelectLower (toLowerCase q)])%list
              /\ ((reachable w = false /\ resp = server_error)
                  \/ (reachable w = true
                      /\ (status resp = 200 \/ resp = not_found))))).
Proof.
  destruct (get_job_cases param w)
    as [[Hd H]|[q [Hd [[Hup H]|[Hup [resp [H Hst]]]]]]];
    rewrite H; eexists _, _; (split; [reflexivity|]); cbn; eauto 10.
Qed.

(** The answer depends on the table and on whether the database answers. *)
Lemma get_job_by_table (param : string) (w1 w2 : World) :
  db w1 = db w2 -> reachable w1 = reachable w2 ->
  fst (get_job param w1) = fst (get_job param w2).
Proof.
  intros H Hup. unfold get_job, try_catch, bind, lift, db_select_lower.
  destruct (decodeURIComponent param) as [q|]; [|reflexivity].
  rewrite H, Hup. destruct (reachable w2); [|reflexivity]. cbn [negb].
  destruct (filter (matches_lower (toLowerCase (toLowerCase q))) (db w2))
    as [|job others]; [reflexivity|].
  destruct (safeParse (col (tech_stack job))); [|reflexivity].
  destruct (safeParse (col (resume_keywords job))); [|reflexivity].
  destruct (safeParse (col (project_ideas job))); reflexivity.
Qed.

Lemma get_job_keeps_table (param : string) (w : World) :
  db (snd (get_job param w)) = db w
  /\ reachable (snd (get_job param w)) = reachable w.
Proof.
  destruct (get_job_cases param w)
    as [[_ H]|[q [_ [[_ H]|[_ [resp [H _]]]]]]]; now rewrite H.
Qed.

(** X11.  Reading is idempotent: the same request, served again after
    itself, gets the same response. *)
Theorem get_job_idempotent (param : string) (w : World) :
  fst (get_job param (snd (get_job param w))) = fst (get_job param w).
Proof. apply get_job_by_table; apply get_job_keeps_table. Qed.

Lemma filter_nil_iff {A} (f : A -> bool) (l : list A) :
  filter f l = [] <-> forall x, In x l -> f x = false.
Proof.
  induction l as [|a l IH]; cbn.
  - split; [intros _ x []|reflexivity].
  - destruct (f a) eqn:Ha; split.
    + discriminate.
    + intros H. specialize (H a (or_introl eq_refl)). congruence.
    + intros H x [<-|Hx]; [exact Ha|now apply IH].
    + intros H. apply IH. intros x Hx. apply H. now right.
Qed.

Lemma matches_lower_false (q : string) (row : Row) :
  matches_lower (toLowerCase q) row = false <->
  forall n, role_name row = Some n -> toLowerCase n <> toLowerCase q.
Proof.
  unfold matches_lower. destruct (role_name row) as [n|].
  - rewrite String.eqb_neq. split.
    + intros H m Hm. now inversion Hm; subst.
    + intros H. now apply H.
  - split; [discriminate|reflexivity].
Qed.

(** X12.  When the database answers, for a parameter that decodes, the
    answer is 404 "Job not found" exactly when no stored name equals the
    requested one once both are lower-cased; spaces count. *)
Theorem get_job_not_found_iff (param q : string) (w : World) :
  reachable w = true ->
  decodeURIComponent param = Some q ->
  fst (get_job param w) = Ok not_found
  <-> (forall row n, In row (db w) -> role_name row = Some n ->
       toLowerCase n <> toLowerCase q).
Proof.
  intros Hup Hd. split.
  - intros Hnf row n Hin Hn.
    destruct (filter (matches_lower (toLowerCase q)) (db w))
      as [|job others] eqn:Hf.
    + rewrite filter_nil_iff in Hf.
      exact (proj1 (matches_lower_false q row) (Hf row Hin) n Hn).
    + destruct (get_job_known _ _ _ _ _ Hup Hd Hf)
        as [ts [rk [pi [_ [_ [_ Hg]]]]]].
      rewrite Hg in Hnf. discriminate.
  - intros Hall.
    rewrite (get_job_unknown param q w Hup Hd); [reflexivity|].
    apply filter_nil_iff. intros row Hin.
    apply matches_lower_false. intros n Hn. now apply (Hall row n).
Qed.

Lemma filter_first_match {A} (f : A -> bool) (pre post : list A) (x : A) :
  (forall y, In y pre -> f y = false) -> f x = true ->
  filter f (pre ++ x :: post) = x :: filter f post.
Proof.
  intros Hpre Hx. rewrite filter_app.
  rewrite (proj2 (filter_nil_iff f pre) Hpre). cbn. now rewrite Hx.
Qed.

(** X13.  When the database answers, the lookup ignores case and, among
    rows of the same lower-cased name, answers with the one stored first:
    200 with that row's name and
    description as stored, its link, and its three list columns read through
    [safeParse]. *)
Theorem get_job_first_match (param q n : string) (w : World) (row : Row)
    (pre post : list Row) :
  reachable w = true ->
  decodeURIComponent param = Some q ->
  db w = (pre ++ row :: post)%list ->
  role_name row = Some n ->
  toLowerCase q = toLowerCase n ->
  (forall r m, In r pre -> role_name r = Some m ->
   toLowerCase m <> toLowerCase q) ->
  exists techStack resumeKeywords projectIdeas,
    safeParse (col (tech_stack row)) = Ok techStack
    /\ safeParse (col (resume_keywords row)) = Ok resumeKeywords
    /\ safeParse (col (project_ideas row)) = Ok projectIdeas
    /\ fst (get_job param w)
       = Ok (mkResponse 200
               (JObj [("role", JStr n);
                      ("description", col (description row));
                      ("techStack", techStack);
                      ("resumeKeywords", resumeKeywords);
                      ("projectIdeas", projectIdeas);
                      ("roadmapLink", col (roadmap_link row))])).
Proof.
  intros Hup Hd Hdb Hn Hq Hpre.
  assert (Hf : filter (matches_lower (toLowerCase q)) (db w)
               = row :: filter (matches_lower (toLowerCase q)) post).
  { rewrite Hdb. apply filter_first_match.
    - intros r Hr. apply matches_lower_false. intros m Hm.
      now apply (Hpre r m).
    - unfold matches_lower. rewrite Hn, Hq. apply String.eqb_refl. }
  destruct (get_job_known _ _ _ _ _ Hup Hd Hf)
    as [ts [rk [pi [Hts [Hrk [Hpi Hg]]]]]].
  exists ts, rk, pi. rewrite Hg, Hn. auto.
Qed.

(** ** [GET /jobs] on every table *)

Lemma mapR_throws {A B} (f : A -> result B) (l : list A) (x : A) (e : error) :
  In x l -> f x = Throw e -> exists e', mapR f l = Throw e'.
Proof.
  induction l as [|a l IH]; cbn; [intros []|].
  intros [->|Hin] Hx.
  - rewrite Hx. cbn. eauto.
  - destruct (f a); cbn; [|eauto].
    destruct (IH Hin Hx) as [e' ->]. cbn. eauto.
Qed.

Lemma forallb_false {A} (f : A -> bool) (l : list A) :
  forallb f l = false -> exists x, In x l /\ f x = false.
Proof.
  induction l as [|a l IH]; cbn; [discriminate|].
  destruct (f a) eqn:Ha; cbn.
  - intros H. destruct (IH H) as [x [Hx Hf]]. eauto.
  - eauto.
Qed.

Lemma titles_nullish (l : list value) :
  forallb (fun p => negb (nullish p)) l = false ->
  exists e, titles (JArr l) = Throw e.
Proof.
  intros H. destruct (forallb_false _ _ H) as [p [Hin Hp]].
  cbn. apply (mapR_throws _ l p TypeError Hin).
  destruct p; cbn in Hp; try discriminate; reflexivity.
Qed.

(** A row that is not renderable makes its entry throw. *)
Lemma jobs_entry_unrenderable (row : Row) :
  renderable row = false -> exists e, jobs_entry row = Throw e.
Proof.
  unfold renderable, jobs_entry.
  destruct (description row) as [d|]; cbn; [|eauto].
  destruct (project_ideas row) as [s|]; cbn; [|discriminate].
  unfold safeParse. cbn.
  destruct (String.eqb s EmptyString); cbn; [discriminate|].
  rewrite json_parse_string.
  destruct (JSON_parse s) as [[| | | | |l|]|]; cbn; try discriminate; eauto.
  intros Hl. destruct (titles_nullish l Hl) as [e He].
  cbn in He. rewrite He. cbn. eauto.
Qed.

(** X14.  [GET /jobs] always answers, after one query and without
    touching the table: 200 when the database answers and every row can be
    rendered; 500 "Something went wrong" when the database does not answer,
    and as soon as one row cannot be rendered (a [NULL] description, or
    project ideas that parse to something other than an array without
    [null]); one such row hides all the others. *)
Theorem get_jobs_responds (w : World) :
  exists resp,
    get_jobs w = (Ok resp, log DbSelectAll w)
    /\ ((reachable w = true /\ forallb renderable (db w) = true
         /\ status resp = 200)
        \/ ((reachable w = false \/ forallb renderable (db w) = false)
            /\ resp = server_error)).
Proof.
  destruct (reachable w) eqn:Hup.
  - destruct (forallb renderable (db w)) eqn:Hr.
    + pose proof (order_by_role_name_perm (db w)) as Hperm.
      destruct (mapR_jobs_entry (order_by_role_name (db w))
                  (forallb_perm _ _ _ Hperm Hr)) as [entries [Hmap _]].
      exists (mkResponse 200 (JArr entries)).
      split; [|left; repeat split].
      unfold get_jobs, try_catch, bind, db_select_all, lift.
      rewrite Hup. cbn [negb]. now rewrite Hmap.
    + destruct (forallb_false _ _ Hr) as [row [Hin Hrow]].
      destruct (jobs_entry_unrenderable row Hrow) as [e He].
      assert (Hin' : In row (order_by_role_name (db w)))
        by (eapply Permutation_in;
            [apply order_by_role_name_perm|exact Hin]).
      destruct (mapR_throws jobs_entry _ row e Hin' He) as [e' He'].
      exists server_error. split; [|right; split; auto].
      unfold get_jobs, try_catch, bind, db_select_all, lift.
      rewrite Hup. cbn [negb]. now rewrite He'.
  - exists server_error. split; [|right; split; auto].
    unfold get_jobs, try_catch, bind, db_select_all, lift.
    rewrite Hup. reflexivity.
Qed.

Lemma titles_title_of (l : list value) :
  forallb (fun p => negb (nullish p)) l = true ->
  titles (JArr l) = Ok (map title_of l).
Proof.
  cbn. induction l as [|p rest IH]; cbn; [reflexivity|].
  intros H. apply andb_true_iff in H as [Hp Hrest].
  rewrite (IH Hrest).
  destruct p; cbn in *; try discriminate; reflexivity.
Qed.

(** X15.  The entry of [GET /jobs] for a row with a description and JSON
    project ideas: the stored name; the first 120 characters of the
    description followed by "..."; every idea reduced to its title, a string
    idea kept as it is, an idea without title left [undefined]; and the
    link, or [null] when the link is [NULL] or the empty string. *)
Theorem jobs_entry_fields (row : Row) (d s : string) (ideas : list value) :
  description row = Some d ->
  project_ideas row = Some s ->
  s <> EmptyString ->
  JSON_parse s = Some (JArr ideas) ->
  forallb (fun p => negb (nullish p)) ideas = true ->
  jobs_entry row =
  Ok (JObj [("role", col (role_name row));
            ("preview", JStr (String.substring 0 120 d ++ "..."));
            ("projectIdeas", JArr (map title_of ideas));
            ("roadmapLink",
             match roadmap_link row with
             | Some EmptyString | None => JNull
             | Some l => JStr l
             end)]).
Proof.
  intros Hd Hp Hs Hj Hi.
  unfold jobs_entry. rewrite Hd, Hp. cbn.
  unfold safeParse. cbn.
  apply String.eqb_neq in Hs. rewrite Hs. cbn.
  rewrite json_parse_string, Hj. cbn.
  pose proof (titles_title_of ideas Hi) as Ht. cbn in Ht. rewrite Ht. cbn.
  destruct (roadmap_link row) as [[|c l]|]; reflexivity.
Qed.

(** X16.  Without usable project ideas (a [NULL] or empty column, or text
    that is not JSON) the entry lists none. *)
Theorem jobs_entry_without_ideas (row : Row) (d : string) :
  description row = Some d ->
  project_ideas row = None
  \/ project_ideas row = Some EmptyString
  \/ (exists s, project_ideas row = Some s /\ JSON_parse s = None) ->
  exists entry,
    jobs_entry row = Ok entry
    /\ get entry "projectIdeas" = Ok (JArr [])
    /\ get entry "preview" = Ok (JStr (String.substring 0 120 d ++ "...")).
Proof.
  intros Hd Hp. unfold jobs_entry. rewrite Hd. cbn.
  destruct Hp as [-> |[-> |[s [-> Hj]]]]; cbn;
    try (eexists; repeat split; reflexivity).
  unfold safeParse. cbn.
  destruct (String.eqb s EmptyString); cbn;
    [eexists; repeat split; reflexivity|].
  rewrite json_parse_string, Hj. cbn.
  eexists; repeat split; reflexivity.
Qed.

(** ** What the [INSERT] writes, [GET /job/:role] reads back *)

Lemma safeParse_stored (v : value) :
  round_trips v -> safeParse (col (Some (JSON_stringify v))) = Ok v.
Proof.
  intros [_ [Hne Hp]]. unfold safeParse. cbn.
  apply String.eqb_neq in Hne. rewrite Hne. cbn.
  now rewrite json_parse_string, Hp.
Qed.

Lemma json_stringify_defined (v : value) :
  v <> JUndefined -> json_stringify v = JStr (JSON_stringify v).
Proof. destruct v; intros H; try reflexivity. now elim H. Qed.

(** X17.  When the database answers, a description with its name under
    [jobRole] and lists the runtime can write and read back, inserted with
    the statement of the miss path into a table that does not hold the name,
    is then served by
    [GET /job/:role] under any case variant of the name, with the
    description, tech stack, resume keywords, project ideas and link that
    were inserted. *)
Theorem insert_then_get_job (n d l param q : string) (ts rk pi : value)
    (w : World) :
  reachable w = true ->
  n <> EmptyString ->
  round_trips ts -> round_trips rk -> round_trips pi ->
  (forall row m, In row (db w) -> role_name row = Some m ->
   toLowerCase m <> toLowerCase n) ->
  decodeURIComponent param = Some q ->
  toLowerCase q = toLowerCase n ->
  exists params w',
    insert_params (JObj [("jobRole", JStr n); ("description", JStr d);
                         ("techStack", ts); ("resumeKeywords", rk);
                         ("projectIdeas", pi); ("roadmapLink", JStr l)])
    = Ok params
    /\ db_insert params w = (Ok tt, w')
    /\ fst (get_job param w')
       = Ok (mkResponse 200
               (JObj [("role", JStr n); ("description", JStr d);
                      ("techStack", ts); ("resumeKeywords", rk);
                      ("projectIdeas", pi); ("roadmapLink", JStr l)])).
Proof.
  intros Hup Hn Hts Hrk Hpi Hfresh Hd Hq.
  pose (row := mkRow (Some n) (Some d) (Some (JSON_stringify ts))
                     (Some (JSON_stringify rk)) (Some (JSON_stringify pi))
                     (Some l)).
  pose (w' := mkWorld (db w ++ [row])%list (provider w) (calls w)
                (trace w ++
                 [DbInsert [JStr n; JStr d; JStr (JSON_stringify ts);
                            JStr (JSON_stringify rk);
                            JStr (JSON_stringify pi); JStr l]])%list
                (reachable w)).
  exists [JStr n; JStr d; JStr (JSON_stringify ts); JStr (JSON_stringify rk);
          JStr (JSON_stringify pi); JStr l], w'.
  split; [|split].
  - unfold insert_params. cbn. unfold js_or. cbn.
    apply String.eqb_neq in Hn. rewrite Hn. cbn.
    rewrite (json_stringify_defined ts (proj1 Hts)),
            (json_stringify_defined rk (proj1 Hrk)),
            (json_stringify_defined pi (proj1 Hpi)).
    reflexivity.
  - unfold db_insert.
    replace (negb (reachable w)) with false by now rewrite Hup.
    reflexivity.
  - assert (Hf : filter (matches_lower (toLowerCase q)) (db w')
                 = row :: filter (matches_lower (toLowerCase q)) []).
    { apply filter_first_match.
      - intros r Hr. apply matches_lower_false. intros m Hm.
        rewrite Hq. now apply (Hfresh r m).
      - unfold matches_lower. cbn. rewrite Hq. apply String.eqb_refl. }
    destruct (get_job_known _ _ w' _ _ (Hup : reachable w' = true) Hd Hf)
      as [ts' [rk' [pi' [Hts' [Hrk' [Hpi' Hg]]]]]].
    rewrite Hg. cbn [fst].
    unfold row in Hts', Hrk', Hpi'. cbn in Hts', Hrk', Hpi'.
    change (JStr (JSON_stringify ts)) with (col (Some (JSON_stringify ts)))
      in Hts'.
    change (JStr (JSON_stringify rk)) with (col (Some (JSON_stringify rk)))
      in Hrk'.
    change (JStr (JSON_stringify pi)) with (col (Some (JSON_stringify pi)))
      in Hpi'.
    rewrite (safeParse_stored ts Hts) in Hts'.
    rewrite (safeParse_stored rk Hrk) in Hrk'.
    rewrite (safeParse_stored pi Hpi) in Hpi'.
    inversion Hts'; inversion Hrk'; inversion Hpi'; subst. reflexivity.
Qed.

(** ** The branch for a stored role *)

Lemma stored_ideas_titles (row : Row) :
  renderable row = true ->
  exists ts,
    (ideas <-- safeParse (col (project_ideas row)) ;; titles ideas)%exc
    = Ok ts.
Proof.
  unfold renderable.
  destruct (description row) as [d|]; [|discriminate].
  destruct (project_ideas row) as [text|]; cbn; [|eauto].
  unfold safeParse. cbn.
  destruct (String.eqb text EmptyString); cbn; [eauto|].
  rewrite json_parse_string.
  destruct (JSON_parse text) as [[| | | | |l|]|]; cbn; try discriminate;
    eauto.
  intros Hl. destruct (titles_defined l Hl) as [ts Hts]. eauto.
Qed.

(** X18.  When the lookup has found rows, the loop body answers from the
    first of them alone: it appends one entry after those already gathered,
    with the stored name (not the suggested one), the suggestion's score as
    computed, and the first 130 characters of the stored description
    followed by "..."; it calls the provider not at all and writes
    nothing. *)
Theorem after_lookup_hit (roleName score : value) (row : Row)
    (others : list Row) (finalJobs : list value) (w : World) (d : string) :
  description row = Some d ->
  renderable row = true ->
  exists ideas,
    after_lookup roleName score (row :: others) finalJobs w
    = (Ok (finalJobs ++
           [JObj [("role", col (role_name row)); ("score", score);
                  ("preview", JStr (String.substring 0 130 d ++ "..."));
                  ("projectIdeas", JArr ideas)]])%list, w).
Proof.
  intros Hd Hr. destruct (stored_ideas_titles row Hr) as [ts Hts].
  exists ts. unfold after_lookup, bind, lift, hit_entry.
  rewrite Hd. cbn.
  destruct (safeParse (col (project_ideas row))) as [ideas|e];
    cbn in Hts |- *; [|discriminate].
  rewrite Hts. reflexivity.
Qed.

(** ** The scores of the entries returned *)


End Properties.

(* ===================================================================== *)
(** * The handlers on concrete requests *)
(* ===================================================================== *)

Import Fixtures.
#[local] Existing Instance Reference.runtime.

(** C3 at a request served while the provider is down. *)
Lemma recommend_never_faults_witness :
  get skills_body "skills" = Ok (JArr [JStr "sql"; JStr "node"])
  /\ exists resp w',
       post_recommend skills_body (start [backend_row] down) = (Ok resp, w')
       /\ ((status resp = 200 /\ exists entries, body resp = JArr entries)
           \/ (400 <= status resp < 600
               /\ exists msg, body resp = error_body msg))
       /\ (forall msg,
             provider (start [backend_row] down)
                      (calls (start [backend_row] down)) = UpThrows msg ->
             status resp = 500
             /\ (exists m, body resp = error_body m)
             /\ db w' = db (start [backend_row] down)).
Proof.
  split; [reflexivity|].
  apply (recommend_never_faults skills_body (JStr "sql") [JStr "node"]
           (start [backend_row] down)).
  reflexivity.
Defined.

(** C8 at a body without [skills], at one whose [skills] is a string, and at
    one whose [skills] is the empty array. *)
Lemma recommend_requires_skills_witness :
  post_recommend (JObj [("name", JStr "Ada")]) hit_world
    = (Ok bad_request, hit_world)
  /\ post_recommend (JObj [("skills", JStr "sql")]) hit_world
    = (Ok bad_request, hit_world)
  /\ post_recommend (JObj [("skills", JArr [])]) hit_world
    = (Ok bad_request, hit_world).
Proof.
  split; [|split].
  - apply (recommend_requires_skills (JObj [("name", JStr "Ada")]) JUndefined
             hit_world); [reflexivity|left; reflexivity].
  - apply (recommend_requires_skills (JObj [("skills", JStr "sql")])
             (JStr "sql") hit_world);
      [reflexivity|right; left; reflexivity].
  - apply (recommend_requires_skills (JObj [("skills", JArr [])]) (JArr [])
             hit_world); [reflexivity|right; right; reflexivity].
Defined.

(** C10 as stated fails: [0] is neither [null], [undefined] nor a string,
    and [safeParse] does not return it; it returns the empty array. *)
Lemma safeParse_zero_not_returned :
  ~ (forall (RT : Runtime) (v : value),
       isString v = false -> v <> JNull -> v <> JUndefined ->
       @safeParse RT v = Ok v).
Proof.
  intros H.
  specialize (H Reference.runtime (JNum 0) eq_refl
                ltac:(discriminate) ltac:(discriminate)).
  discriminate H.
Qed.

(** C10, as the code has it, at [null], at a string that is not JSON, at the
    JSON text of a number, and at a number. *)
Lemma safeParse_total_witness :
  safeParse JNull = Ok (JArr [])
  /\ safeParse (JStr "not json") = Ok (JArr [])
  /\ safeParse (JStr "42") = Ok (JNum 42)
  /\ safeParse (JNum 7) = Ok (JNum 7).
Proof.
  split; [|split; [|split]].
  - apply (proj1 (proj2 (safeParse_total JNull))). reflexivity.
  - apply (proj1 (proj2 (proj2 (safeParse_total (JStr "not json"))))
             "not json"); [reflexivity|discriminate|reflexivity].
  - apply (proj1 (proj2 (proj2 (proj2 (safeParse_total (JStr "42")))))
             "42" (JNum 42)); [reflexivity|discriminate|reflexivity].
  - apply (proj2 (proj2 (proj2 (proj2 (safeParse_total (JNum 7))))));
      reflexivity.
Defined.

(** C9 as stated fails: on a table with a row whose description is
    [NULL] the listing is not returned; the answer is 500. *)
Lemma get_jobs_null_description :
  ~ (forall (RT : Runtime) (w : World),
       exists entries,
         fst (@get_jobs RT w) = Ok (mkResponse 200 (JArr entries))).
Proof.
  intros H.
  destruct (H Reference.runtime (start [backend_row; blank_row] down))
    as [entries He].
  discriminate He.
Qed.

(** C9, as the code has it, at a table of two rows stored out of order, one
    with a short description. *)
Lemma jobs_sorted_with_previews_witness :
  reachable (start [backend_row; analyst_row] down) = true
  /\ forallb renderable (db (start [backend_row; analyst_row] down)) = true
  /\ exists rows entries,
       get_jobs (start [backend_row; analyst_row] down)
         = (Ok (mkResponse 200 (JArr entries)),
            log DbSelectAll (start [backend_row; analyst_row] down))
       /\ Permutation (db (start [backend_row; analyst_row] down)) rows
       /\ Sorted name_le (map role_name rows)
       /\ Forall2 rendered rows entries
       /\ Forall (fun e => exists p, get e "preview" = Ok (JStr p)
                                     /\ String.length p <= 123) entries.
Proof.
  split; [reflexivity|]. split; [reflexivity|].
  apply (jobs_sorted_with_previews (start [backend_row; analyst_row] down));
    reflexivity.
Defined.

Example jobs_two_rows :
  fst (get_jobs (start [backend_row; analyst_row] down)) =
  Ok (mkResponse 200
        (JArr [JObj [("role", JStr "Analyst");
                     ("preview", JStr "Reads data....");
                     ("projectIdeas", JArr []);
                     ("roadmapLink", JNull)];
               JObj [("role", JStr "Backend Developer");
                     ("preview",
                      JStr (String.substring 0 120 long_text ++ "..."));
                     ("projectIdeas",
                      JArr [JStr "URL shortener"; JStr "Chat server"]);
                     ("roadmapLink", JStr "https://roadmap.sh/backend")]])).
Proof. reflexivity. Qed.

(** C6 as stated fails: a provider answer with four roles comes back as four
    suggestions. *)
Lemma getAIJobRoles_not_capped :
  ~ (forall (RT : Runtime) (skills l : list value) (w w' : World),
       skills <> [] ->
       @getAIJobRoles RT skills w = (Ok l, w') ->
       List.length l <= 3).
Proof.
  intros H.
  specialize (H Reference.runtime [JStr "sql"] _ four_world _
                ltac:(discriminate) eq_refl).
  cbn in H. lia.
Qed.

(** C6 as the code has it, at the answer with four roles. *)
Lemma getAIJobRoles_returns_provider_list_witness :
  exists l,
    provider_list
      (JObj [("roles",
              JArr [JObj [("role", JStr "Backend Developer"); ("score", JNum 85)];
                    JObj [("role", JStr "Database Engineer"); ("score", JNum 70)];
                    JObj [("role", JStr "Full Stack Developer");
                          ("score", JNum 65)];
                    JObj [("role", JStr "Data Engineer"); ("score", JNum 60)]])])
    = Some l
    /\ List.length l = 4
    /\ getAIJobRoles [JStr "sql"] four_world
       = (Ok l, called "User skills: sql" four_world).
Proof.
  eexists. split; [reflexivity|]. split; [reflexivity|].
  eapply (getAIJobRoles_returns_provider_list [JStr "sql"] four_world
            "User skills: sql" (completion four_suggestions));
    reflexivity.
Defined.

(** C1.  The table holds "Backend Developer" with a description of 165
    characters, and the provider suggests " backend developer ", which
    matches it once trimmed and lower-cased.  The handler answers 500: the
    lookup names [role_name], which is unbound, and no query reaches the
    table (the log holds only the provider call), so no preview is
    returned. *)
Theorem recommend_stored_role_fails :
  matches_trim_lower " backend developer " backend_row = true
  /\ 130 <= String.length long_text
  /\ fst (post_recommend skills_body hit_world) = Ok server_error
  /\ trace (snd (post_recommend skills_body hit_world))
     = [AiChat "User skills: sql, node"].
Proof. repeat split. vm_compute. lia. Qed.

(** C2.  The provider suggests two roles the table does not hold and cannot
    describe them.  The handler answers 500 instead of a 200 with the roles
    it could process.  Past the lookup, the branch for an absent role reads a
    property of the [null] description (line 192) and throws as well. *)
Theorem recommend_undescribed_role_fails :
  fst (post_recommend skills_body undescribed_world) = Ok server_error
  /\ fst (getAIDetailsForJob (JStr "Quantum Barista") (start [backend_row] down))
     = Ok JNull
  /\ fst (after_lookup (JStr "Quantum Barista") (JNum 40) [] []
            (start [backend_row] down))
     = Throw TypeError.
Proof. repeat split. Qed.

(** C4.  The provider suggests "Data Engineer", which the table does not
    hold, and describes it.  The handler answers 500 before it asks for the
    description: nothing is inserted, and [GET /job/:role] for that name
    answers 404.  Past the lookup, a description that names the role under [role],
    the key the response entry reads, is stored with a [NULL] [role_name],
    and the role is not found either. *)
Theorem recommend_miss_not_retrievable :
  fst (post_recommend skills_body miss_world) = Ok server_error
  /\ db (snd (post_recommend skills_body miss_world)) = []
  /\ calls (snd (post_recommend skills_body miss_world)) = 1
  /\ fst (get_job "Data Engineer" (snd (post_recommend skills_body miss_world)))
     = Ok not_found
  /\ map role_name
         (db (snd (after_lookup (JStr "Data Engineer") (JNum 90) [] []
                     (describing "role"))))
     = [None]
  /\ fst (get_job "Data Engineer"
            (snd (after_lookup (JStr "Data Engineer") (JNum 90) [] []
                    (describing "role"))))
     = Ok not_found.
Proof. repeat split. Qed.

(** Past the lookup, a description that names the role under [jobRole] is
    stored under that name and read back by [GET /job/:role]. *)
Example described_role_read_back :
  fst (get_job "data engineer"
         (snd (after_lookup (JStr "Data Engineer") (JNum 90) [] []
                 (describing "jobRole"))))
  = Ok (mkResponse 200
          (JObj [("role", JStr "Data Engineer");
                 ("description", JStr "Builds and runs data pipelines.");
                 ("techStack", JArr [JStr "Spark"; JStr "Airflow"]);
                 ("resumeKeywords", JArr [JStr "ETL"]);
                 ("projectIdeas", JArr [JStr "Lakehouse"]);
                 ("roadmapLink", JStr "https://roadmap.sh/data-engineer")])).
Proof. reflexivity. Qed.

(** C5.  The table holds "Backend Developer".  The request names
    " backend developer", with a leading space: trimmed and lower-cased it
    is the stored name, and the query of [POST /recommend] would select the
    row, but [GET /job/:role] compares without [TRIM] and answers 404. *)
Theorem get_job_does_not_trim :
  decodeURIComponent " backend developer" = Some " backend developer"
  /\ matches_trim_lower " backend developer" backend_row = true
  /\ fst (get_job " backend developer" (start [backend_row] down))
     = Ok not_found
  /\ status not_found = 404.
Proof. repeat split. Qed.

(** A stored name with a percent sign: the router hands it over decoded,
    the handler decodes it again, and the second decoding fails. *)
Example get_job_percent_in_name :
  fst (get_job "100% Remote Engineer"
         (start [mkRow (Some "100% Remote Engineer") (Some "Works anywhere.")
                       None None None None] down))
  = Ok server_error.
Proof. reflexivity. Qed.

(** A case and percent-encoding variant of the stored name is found. *)
Example get_job_case_variant :
  fst (get_job "BACKEND%20developer" (start [backend_row] down))
  = Ok (mkResponse 200
          (JObj [("role", JStr "Backend Developer");
                 ("description", JStr long_text);
                 ("techStack", JArr [JStr "Node.js"; JStr "MySQL"]);
                 ("resumeKeywords", JArr [JStr "REST"; JStr "SQL"]);
                 ("projectIdeas",
                  JArr [JObj [("title", JStr "URL shortener")];
                        JStr "Chat server"]);
                 ("roadmapLink", JStr "https://roadmap.sh/backend")])).
Proof. reflexivity. Qed.

(** Lines 171, 181-188 and 206-213 on a suggestion scored 0, the lookup
    left aside: the score is turned into [null], and the entry built from a
    stored row, like the one built from a fresh description, carries [null]
    where the suggestion has 0. *)
Theorem zero_score_becomes_null :
  get zero_scored "score" = Ok (JNum 0)
  /\ score_of zero_scored = Ok JNull
  /\ (s <-- score_of zero_scored ;;
      e <-- hit_entry backend_row s ;;
      get e "score")%exc = Ok JNull
  /\ (s <-- score_of zero_scored ;;
      e <-- miss_entry described s ;;
      get e "score")%exc = Ok JNull.
Proof. repeat split. Qed.

(* ===================================================================== *)
(** * Further runs *)
(* ===================================================================== *)

(** X3 at an answer that is an object without [roles] or [jobs]. *)
Lemma getAIJobRoles_unexpected_shape_witness :
  getAIJobRoles [JStr "sql"] (start [] (saying (json "{'message':'hello'}")))
  = (Ok [],
     called "User skills: sql"
            (start [] (saying (json "{'message':'hello'}")))).
Proof.
  eapply (getAIJobRoles_unexpected_shape [JStr "sql"]
            (start [] (saying (json "{'message':'hello'}")))
            "User skills: sql" (completion (json "{'message':'hello'}")));
    reflexivity.
Defined.

(** X4 at an answer whose [roles] is the empty list. *)
Lemma recommend_empty_answer_witness :
  post_recommend skills_body (start [backend_row] (saying (json "{'roles':[]}")))
  = (Ok (mkResponse 200 (JArr [])),
     called "User skills: sql, node"
            (start [backend_row] (saying (json "{'roles':[]}")))).
Proof.
  eapply (recommend_empty_answer skills_body (JStr "sql") [JStr "node"]
            (start [backend_row] (saying (json "{'roles':[]}")))
            "User skills: sql, node" (completion (json "{'roles':[]}")));
    try reflexivity.
  right. reflexivity.
Defined.

(** X5 at an answer whose [choices] is empty. *)
Lemma getAIJobRoles_no_choices_witness :
  getAIJobRoles [JStr "sql"] (start [] (fun _ => UpResponse no_choices))
  = (Throw (ReferenceError "res"),
     called "User skills: sql" (start [] (fun _ => UpResponse no_choices))).
Proof.
  apply (getAIJobRoles_no_choices [JStr "sql"]
           (start [] (fun _ => UpResponse no_choices)) "User skills: sql"
           no_choices (JArr []));
    [reflexivity|reflexivity|reflexivity|right; reflexivity].
Defined.

(** X6 at an answer whose content is prose. *)
Lemma getAIJobRoles_bad_content_witness :
  getAIJobRoles [JStr "sql"] (start [] (saying "Sure, here are three roles"))
  = (Throw (ReferenceError "res"),
     called "User skills: sql"
            (start [] (saying "Sure, here are three roles"))).
Proof.
  eapply (getAIJobRoles_bad_content [JStr "sql"]
            (start [] (saying "Sure, here are three roles"))
            "User skills: sql" (completion "Sure, here are three roles"));
    try reflexivity.
  left. reflexivity.
Defined.

(** X7 at a role name that is a string, with the provider down, and at one
    that does not convert to text. *)
Lemma getAIDetailsForJob_never_throws_witness :
  (exists details,
     getAIDetailsForJob (JStr "Data Engineer") (start [] down)
     = (Ok details,
        called "Provide details for the job role: Data Engineer"
               (start [] down)))
  /\ getAIDetailsForJob (JObj [("toString", JNum 1)]) (start [] down)
     = (Throw TypeError, start [] down).
Proof.
  split.
  - apply (proj1 (getAIDetailsForJob_never_throws (JStr "Data Engineer")
                    (start [] down))).
    reflexivity.
  - apply (proj2 (getAIDetailsForJob_never_throws
                    (JObj [("toString", JNum 1)]) (start [] down))).
    reflexivity.
Defined.

(** X8 at an answer whose content is the JSON text of a number. *)
Lemma getAIDetailsForJob_returns_content_witness :
  getAIDetailsForJob (JStr "Data Engineer") (start [] (saying "42"))
  = (Ok (JNum 42),
     called "Provide details for the job role: Data Engineer"
            (start [] (saying "42"))).
Proof.
  eapply (getAIDetailsForJob_returns_content (JStr "Data Engineer")
            (start [] (saying "42"))
            "Provide details for the job role: Data Engineer"
            (completion "42"));
    reflexivity.
Defined.

(** X9 at an answer whose [choices] is empty. *)
Lemma getAIDetailsForJob_null_on_bad_answer_witness :
  getAIDetailsForJob (JStr "Data Engineer")
                     (start [] (fun _ => UpResponse no_choices))
  = (Ok JNull,
     called "Provide details for the job role: Data Engineer"
            (start [] (fun _ => UpResponse no_choices))).
Proof.
  apply (getAIDetailsForJob_null_on_bad_answer (JStr "Data Engineer")
           (start [] (fun _ => UpResponse no_choices))
           "Provide details for the job role: Data Engineer"
           no_choices (JArr []));
    [reflexivity|reflexivity|reflexivity|right; left; reflexivity].
Defined.

(** X12 at a name the table does not hold. *)
Lemma get_job_not_found_iff_witness :
  fst (get_job "Intern" (start [backend_row] down)) = Ok not_found.
Proof.
  apply (get_job_not_found_iff "Intern" "Intern" (start [backend_row] down));
    [reflexivity|reflexivity|].
  intros row n [<-|[]] Hn. inversion Hn; subst. discriminate.
Defined.

(** X13 at a table that holds the name twice, case apart, after another
    row. *)
Lemma get_job_first_match_witness :
  exists techStack resumeKeywords projectIdeas,
    safeParse (col (tech_stack backend_row)) = Ok techStack
    /\ safeParse (col (resume_keywords backend_row)) = Ok resumeKeywords
    /\ safeParse (col (project_ideas backend_row)) = Ok projectIdeas
    /\ fst (get_job "backend DEVELOPER"
              (start [analyst_row; backend_row; shadow_row] down))
       = Ok (mkResponse 200
               (JObj [("role", JStr "Backend Developer");
                      ("description", col (description backend_row));
                      ("techStack", techStack);
                      ("resumeKeywords", resumeKeywords);
                      ("projectIdeas", projectIdeas);
                      ("roadmapLink", col (roadmap_link backend_row))])).
Proof.
  apply (get_job_first_match "backend DEVELOPER" "backend DEVELOPER"
           "Backend Developer"
           (start [analyst_row; backend_row; shadow_row] down)
           backend_row [analyst_row] [shadow_row]);
    try reflexivity.
  intros r m [<-|[]] Hm. inversion Hm; subst. discriminate.
Defined.

(** X15 at a row with two ideas, an object and a string. *)
Lemma jobs_entry_fields_witness :
  jobs_entry backend_row =
  Ok (JObj [("role", JStr "Backend Developer");
            ("preview", JStr (String.substring 0 120 long_text ++ "..."));
            ("projectIdeas",
             JArr (map title_of [JObj [("title", JStr "URL shortener")];
                                 JStr "Chat server"]));
            ("roadmapLink", JStr "https://roadmap.sh/backend")]).
Proof.
  apply (jobs_entry_fields backend_row long_text
           (json "[{'title':'URL shortener'},'Chat server']")
           [JObj [("title", JStr "URL shortener")]; JStr "Chat server"]);
    try reflexivity.
  discriminate.
Defined.

(** X16 at a row whose project ideas are [NULL]. *)
Lemma jobs_entry_without_ideas_witness :
  exists entry,
    jobs_entry analyst_row = Ok entry
    /\ get entry "projectIdeas" = Ok (JArr [])
    /\ get entry "preview"
       = Ok (JStr (String.substring 0 120 "Reads data." ++ "...")).
Proof.
  apply (jobs_entry_without_ideas analyst_row "Reads data.");
    [reflexivity|left; reflexivity].
Defined.

(** X17 at a table that holds another role. *)
Lemma insert_then_get_job_witness :
  exists params w',
    insert_params engineer_details = Ok params
    /\ db_insert params (start [backend_row] down) = (Ok tt, w')
    /\ fst (get_job "DATA engineer" w')
       = Ok (mkResponse 200
               (JObj [("role", JStr "Data Engineer");
                      ("description", JStr "Builds and runs data pipelines.");
                      ("techStack", JArr [JStr "Spark"; JStr "Airflow"]);
                      ("resumeKeywords", JArr [JStr "ETL"]);
                      ("projectIdeas",
                       JArr [JObj [("title", JStr "Lakehouse")]]);
                      ("roadmapLink",
                       JStr "https://roadmap.sh/data-engineer")])).
Proof.
  apply (insert_then_get_job "Data Engineer"
           "Builds and runs data pipelines."
           "https://roadmap.sh/data-engineer" "DATA engineer" "DATA engineer"
           (JArr [JStr "Spark"; JStr "Airflow"]) (JArr [JStr "ETL"])
           (JArr [JObj [("title", JStr "Lakehouse")]])
           (start [backend_row] down));
    try reflexivity;
    try (split; [discriminate|split; [discriminate|reflexivity]]).
  - discriminate.
  - intros row m [<-|[]] Hm. inversion Hm; subst. discriminate.
Defined.


(** Accented capitals fold like the plain ones: the stored name is found
    for its spelling in capitals. *)
Example get_job_accented_name :
  fst (get_job cafe_capitals (start [cafe_row] down))
  = Ok (mkResponse 200
          (JObj [("role", col (role_name cafe_row));
                 ("description", JStr "Serves coffee.");
                 ("techStack", JArr []); ("resumeKeywords", JArr []);
                 ("projectIdeas", JArr []); ("roadmapLink", JNull)])).
Proof. reflexivity. Qed.

(** Skills that do not convert to text: 500, and the provider is not
    called. *)
Example recommend_poisoned_skills :
  post_recommend (JObj [("skills", JArr poisoned_skills)]) hit_world
  = (Ok server_error, hit_world).
Proof. reflexivity. Qed.

(** The database is down: both readers answer 500. *)
Example readers_when_store_down :
  fst (get_job "Backend Developer" (unreachable [backend_row]))
  = Ok server_error
  /\ fst (get_jobs (unreachable [backend_row])) = Ok server_error.
Proof. split; reflexivity. Qed.

(** X18 at the stored "Backend Developer", found for another spelling. *)
Lemma after_lookup_hit_witness :
  exists ideas,
    after_lookup (JStr " backend developer ") (JNum 85) [backend_row]
                 [JStr "earlier entry"] hit_world
    = (Ok [JStr "earlier entry";
           JObj [("role", JStr "Backend Developer"); ("score", JNum 85);
                 ("preview", JStr (String.substring 0 130 long_text ++ "..."));
                 ("projectIdeas", JArr ideas)]], hit_world).
Proof.
  apply (after_lookup_hit (JStr " backend developer ") (JNum 85) backend_row
           [] [JStr "earlier entry"] hit_world long_text);
    reflexivity.
Defined.
